(** * Serial chiller: the session driver and the device responder

    A shallow embedding of the two programs of the repository:

    - [chiller.py], the simulated chiller (the Device Responder): module
      [Chiller];
    - [main.py], class [SerialWorker] (the Session Driver): module
      [SerialWorker].

    Python values are modelled as follows.

    - A [str] is a [string]: its characters are the code points below 256.
      The code points from 128 on are the ones that are not ASCII, on which
      [str.encode("ascii")] raises.
    - A [bytes] object is a [list byte].
    - An exception is a value of [Exn]; a computation that may raise returns
      a [Result].
    - A delay is a Python [float], as the GUI passes it to the worker: a
      binary64 [float], with its infinities and NaN. [time.sleep] raises on
      NaN, on a negative delay and on a delay too long for its clock; how
      long that is depends on the reading of the monotonic clock, which is
      part of the environment of a run. *)

From Stdlib Require Import Strings.String Strings.Ascii Strings.Byte.
From Stdlib Require Import NArith ZArith Lia List Bool.
From Stdlib Require Import Floats.PrimFloat Floats.SpecFloat Floats.FloatOps.
From stdpp Require Import base option gmap strings.

Import ListNotations.
Local Open Scope string_scope.
Local Open Scope list_scope.

(** ** Exceptions and results *)

Inductive Exn : Type :=
| SerialException (msg : string)  (* raised by the serial transport *)
| UnicodeEncodeError              (* str.encode("ascii") on text that is not ASCII *)
| UnicodeDecodeError              (* bytes.decode("ascii") on a byte above 127 *)
| ValueError                      (* time.sleep on a negative delay or on NaN *)
| OverflowError                   (* time.sleep on a delay beyond 64 bits of nanoseconds *)
| OSError.                        (* time.sleep on a deadline the system refuses *)

Inductive Result (A : Type) : Type :=
| Ok (a : A)
| Raise (e : Exn).

Arguments Ok {A} a.
Arguments Raise {A} e.

(** ** The Python built-ins the two programs call *)

Module Py.

(** [ch.isspace()] for a one-character string: the ASCII white space
    (tab to carriage return, the four separators 0x1c to 0x1f, space) and,
    above 127, NEL and the no-break space. *)
Definition isspace (c : ascii) : bool :=
  let n := N_of_ascii c in
  ((9 <=? n) && (n <=? 13) || (28 <=? n) && (n <=? 32)
   || (n =? 133) || (n =? 160))%N.

(** Membership of a character in the [chars] argument of [rstrip]. *)
Fixpoint char_in (c : ascii) (chars : string) : bool :=
  match chars with
  | EmptyString => false
  | String d chars' => Ascii.eqb c d || char_in c chars'
  end.

Fixpoint lstrip_by (p : ascii -> bool) (s : string) : string :=
  match s with
  | EmptyString => EmptyString
  | String c s' => if p c then lstrip_by p s' else s
  end.

Fixpoint rstrip_by (p : ascii -> bool) (s : string) : string :=
  match s with
  | EmptyString => EmptyString
  | String c s' =>
      match rstrip_by p s' with
      | EmptyString => if p c then EmptyString else String c EmptyString
      | r => String c r
      end
  end.

(** [s.strip()] *)
Definition strip (s : string) : string := rstrip_by isspace (lstrip_by isspace s).

(** [s.rstrip(chars)] *)
Definition rstrip (s chars : string) : string :=
  rstrip_by (fun c => char_in c chars) s.

(** [s.startswith(p)] *)
Definition startswith (s p : string) : bool := String.prefix p s.

(** [s.split(sep, 1)] for a one-character separator: one part when [sep]
    does not occur, otherwise the text before the first occurrence and the
    text after it. *)
Fixpoint split1 (s : string) (sep : ascii) : list string :=
  match s with
  | EmptyString => [EmptyString]
  | String c s' =>
      if Ascii.eqb c sep then [EmptyString; s']
      else match split1 s' sep with
           | hd :: tl => String c hd :: tl
           | [] => []
           end
  end.

(** [ord(c) in range(128)] *)
Definition is_ascii (c : ascii) : bool := (N_of_ascii c <? 128)%N.

(** [s.encode("ascii")] *)
Fixpoint encode (s : string) : Result (list byte) :=
  match s with
  | EmptyString => Ok []
  | String c s' =>
      if is_ascii c then
        match encode s' with
        | Ok bs => Ok (byte_of_ascii c :: bs)
        | Raise e => Raise e
        end
      else Raise UnicodeEncodeError
  end.

(** [b.decode("ascii")] *)
Fixpoint decode (bs : list byte) : Result string :=
  match bs with
  | [] => Ok EmptyString
  | b :: bs' =>
      if is_ascii (ascii_of_byte b) then
        match decode bs' with
        | Ok s => Ok (String (ascii_of_byte b) s)
        | Raise e => Raise e
        end
      else Raise UnicodeDecodeError
  end.

(** [b.decode("ascii", errors="ignore")] *)
Fixpoint decode_ignore (bs : list byte) : string :=
  match bs with
  | [] => EmptyString
  | b :: bs' =>
      if is_ascii (ascii_of_byte b) then String (ascii_of_byte b) (decode_ignore bs')
      else decode_ignore bs'
  end.

(** The line terminators "\r" and "\r\n". *)
Definition CR : string := String "013" EmptyString.
Definition CRLF : string := String "013" (String "010" EmptyString).

(** Whether every character of [s] satisfies [p]. *)
Fixpoint all_chars (p : ascii -> bool) (s : string) : bool :=
  match s with
  | EmptyString => true
  | String c s' => p c && all_chars p s'
  end.

(** [s.isascii()] *)
Definition isascii (s : string) : bool := all_chars is_ascii s.

(** A [bytes] literal. *)
Definition bytes (s : string) : list byte := list_byte_of_string s.

(** [not s] for a string. *)
Definition is_empty (s : string) : bool :=
  match s with EmptyString => true | String _ _ => false end.

(** [time.sleep(secs)] on a float, as CPython 3.11 does it on Linux.

    The seconds become a whole number of nanoseconds in a signed 64-bit
    integer: the product with 1e9, rounded away from zero. [ns_away] is that
    rounding of a finite float. *)
Definition ns_away (d : float) : Z :=
  match Prim2SF d with
  | S754_finite s m e =>
      let n := if (0 <=? e)%Z then (Z.pos m * 2 ^ e)%Z
               else ((Z.pos m + 2 ^ (- e) - 1) / 2 ^ (- e))%Z in
      if s then (- n)%Z else n
  | _ => 0%Z
  end.

(** The conversion of the argument, and the test of its sign: NaN is
    refused with ValueError; a product outside the range from -2^63 to 2^63,
    for the two infinities too, with OverflowError; and a length that is
    negative once converted with ValueError, which is the case of a
    negative product and of the product 2^63 itself, converted to -2^63. *)
Definition sleep_timeout (secs : float) : Result Z :=
  if PrimFloat.is_nan secs then Raise ValueError
  else
    let d := PrimFloat.mul secs 1e9%float in
    if negb (PrimFloat.leb (-0x1p63)%float d && PrimFloat.leb d 0x1p63%float)
    then Raise OverflowError
    else
      let timeout :=
        if PrimFloat.eqb d 0x1p63%float then (- 2 ^ 63)%Z else ns_away d in
      if (timeout <? 0)%Z then Raise ValueError else Ok timeout.

(** The exception that [time.sleep(secs)] raises, [None] when it sleeps and
    returns, when the monotonic clock reads [monotonic] nanoseconds. The
    sleep ends at the deadline [monotonic + timeout], which the system
    refuses (EINVAL) when the sum is beyond 64 bits. *)
Definition time_sleep (monotonic : Z) (secs : float) : option Exn :=
  match sleep_timeout secs with
  | Raise e => Some e
  | Ok timeout =>
      if (2 ^ 63 - 1 <? monotonic + timeout)%Z then Some OSError else None
  end.

End Py.

(** ** chiller.py: the simulated chiller *)

Module Chiller.

(** Mapping for standard "in" commands. *)
Definition RESPONSES : gmap string string :=
  <["VERSION" := "JULABO_V3.0"]>
    (<["status" := "03 REMOTE START"]>
      (<["in_mode_05" := "1"]>
        (<["in_mode_04" := "0"]>
          (<["in_sp_06" := "14.55"]>
            (<["in_sp_00" := "2.00"]>
              (<["in_pv_00" := "14.55"]>
                (<["in_pv_02" := "---.--"]>
                  (<["in_pv_01" := "-100"]> ∅)))))))).

(** The response chosen for a non-empty trimmed line [data]: the body of
    [if data:], up to the assignment of [response]. *)
Definition respond (data : string) : string :=
  if Py.startswith data "out_sp_00" then
    let parts := Py.split1 data " " in
    if (1 <? length parts)%nat then "Setpoint updated to " +:+ nth 1 parts ""
    else "Missing parameter for out_sp_00"
  else if Py.startswith data "out_mode_05" then
    let parts := Py.split1 data " " in
    if (1 <? length parts)%nat then
      if String.eqb (nth 1 parts "") "1" then "Chiller turned on"
      else "Chiller turned off"
    else "Missing parameter for out_mode_05"
  else default "OK" (RESPONSES !! data).

(** What the port delivers to the simulator while a read is pending: a byte,
    or the expiry of the read timeout. *)
Inductive RxItem : Type :=
| Rx (b : byte)
| RxTimeout.

(** The byte 0x0D. *)
Definition CR : byte := byte_of_ascii "013".

(** [ser.read_until(b'\r')]: the bytes up to and including the first
    carriage return, or the bytes received before a timeout; with it, the
    items left in the stream. An exhausted stream delivers nothing more. *)
Fixpoint read_until (rx : list RxItem) : list byte * list RxItem :=
  match rx with
  | [] => ([], [])
  | RxTimeout :: rx' => ([], rx')
  | Rx b :: rx' =>
      if Byte.eqb b CR then ([b], rx')
      else let (line, rest) := read_until rx' in (b :: line, rest)
  end.

(** One pass of the [while True] loop on the bytes [raw] that [read_until]
    returned: [None] when the trimmed line is empty (the simulator sleeps),
    otherwise the bytes written to the port. The [print] calls are not
    modelled. *)
Definition handle (raw : list byte) : Result (option (list byte)) :=
  match Py.decode raw with
  | Raise e => Raise e
  | Ok text =>
      let data := Py.strip text in
      if negb (Py.is_empty data) then
        let response := respond data in
        let full_response := response +:+ Py.CRLF in
        match Py.encode full_response with
        | Ok out => Ok (Some out)
        | Raise e => Raise e
        end
      else Ok None
  end.

(** [simulate_chiller], run for [n] passes of its loop over the incoming
    stream [rx]: the byte strings written to the port, in order, and the
    exception that ended the process, if one did. *)
Fixpoint simulate_chiller (n : nat) (rx : list RxItem)
  : list (list byte) * option Exn :=
  match n with
  | O => ([], None)
  | S n' =>
      let (raw, rx') := read_until rx in
      match handle raw with
      | Raise e => ([], Some e)
      | Ok None => simulate_chiller n' rx'
      | Ok (Some out) =>
          let (outs, st) := simulate_chiller n' rx' in (out :: outs, st)
      end
  end.

(** The frame of a command [c] sent with no parameter, as it reaches the
    simulator. *)
Definition line_of (c : string) : list RxItem :=
  map Rx (Py.bytes (c +:+ Py.CR)).

(** The stream made of the commands [cmds], each followed by the terminator
    [term]. *)
Definition frames (term : list byte) (cmds : list (list byte)) : list RxItem :=
  flat_map (fun c => map Rx (c ++ term)) cmds.

(** The byte 0x0A. *)
Definition LF : byte := byte_of_ascii "010".

(** What the simulator writes for the command line [c]: nothing when the
    trimmed line is empty, otherwise its response and the line end. *)
Definition answer_of (c : string) : list (list byte) :=
  let data := Py.strip c in
  if Py.is_empty data then [] else [Py.bytes (respond data +:+ Py.CRLF)].

(** [lf_inserted s1 s2]: the stream [s1] is the stream [s2] with a line
    feed put after some of its carriage returns. *)
Inductive lf_inserted : list RxItem -> list RxItem -> Prop :=
| lf_nil : lf_inserted [] []
| lf_same x s1 s2 : lf_inserted s1 s2 -> lf_inserted (x :: s1) (x :: s2)
| lf_after_cr s1 s2 :
    lf_inserted s1 s2 -> lf_inserted (Rx CR :: Rx LF :: s1) (Rx CR :: s2).

(** The same, when the line feed of the carriage return just read is still
    in the stream. *)
Definition lf_pending (s1 s2 : list RxItem) : Prop :=
  lf_inserted s1 s2 \/ exists s1', s1 = Rx LF :: s1' /\ lf_inserted s1' s2.

(** The bytes of a stream, without its timeouts. *)
Fixpoint rx_bytes (rx : list RxItem) : list byte :=
  match rx with
  | [] => []
  | Rx b :: rx' => b :: rx_bytes rx'
  | RxTimeout :: rx' => rx_bytes rx'
  end.

(** A byte that is not ASCII. *)
Definition high_byte (b : byte) : bool := negb (Py.is_ascii (ascii_of_byte b)).

End Chiller.

(** ** main.py: the serial worker *)

Module SerialWorker.

(** An entry of [self.commands]: the tuple (command, parameter), where the
    parameter may be [None]. *)
Definition Command : Type := string * option string.

(** The fields of the worker that [run] reads. The port settings (baud
    rate, byte size, parity, stop bits and the two timeouts) only reach the
    transport, whose behaviour is the environment's. *)
Record Fields : Type := {
  commands : list Command;
  append_newline : bool;
  tx_delay : float;
  command_delay : float
}.

(** The text carried by [update_signal]: the three f-strings of [run],
    "Sending: {text}", "Received: {text}\n" and "Error: {e}". *)
Inductive Message : Type :=
| Sending (text : string)
| Received (text : string)
| Error (e : Exn).

(** What the worker does to the outside world, in the order it does it. *)
Inductive Action : Type :=
| Open                         (* serial.Serial(...) returned the port *)
| Write (data : list byte)     (* ser.write(data) *)
| Flush                        (* ser.flush() *)
| Sleep (d : float)            (* time.sleep(d) *)
| Readline (raw : list byte)   (* ser.readline() returned raw *)
| Close                        (* ser.close() *)
| Update (m : Message)         (* self.update_signal.emit(...) *)
| Finished.                    (* self.finished.emit() *)

(** The environment of one run: whether the port opens, the outcome of each
    transport call as a function of the step at which the worker makes it,
    the steps just before which the GUI thread calls [stop], and the
    reading of the monotonic clock at each step, in nanoseconds. *)
Record Env : Type := {
  open_error : option Exn;
  write_error : nat -> option Exn;
  flush_error : nat -> option Exn;
  readline_result : nat -> Result (list byte);
  stop_calls : nat -> bool;
  monotonic : nat -> Z
}.

(** The state shared by the worker and its observers: the field
    [self._is_running], the number of steps the worker has made, and the
    actions it has performed so far, oldest first. *)
Record World : Type := {
  is_running : bool;
  clock : nat;
  trace : list Action
}.

(** [__init__] sets [self._is_running = True]. *)
Definition init : World := {| is_running := true; clock := 0; trace := [] |}.

(** [stop]: [self._is_running = False]. *)
Definition stop (w : World) : World :=
  {| is_running := false; clock := clock w; trace := trace w |}.

Definition log (a : Action) (w : World) : World :=
  {| is_running := is_running w; clock := clock w; trace := trace w ++ [a] |}.

(** A computation of the worker: it may raise, and it changes the world. *)
Definition M (A : Type) : Type := World -> Result A * World.

Definition ret {A} (a : A) : M A := fun w => (Ok a, w).

Definition bind {A B} (m : M A) (k : A -> M B) : M B :=
  fun w => match m w with
           | (Ok a, w') => k a w'
           | (Raise e, w') => (Raise e, w')
           end.

(** The result of a pure computation that may raise. *)
Definition lift {A} (r : Result A) : M A := fun w => (r, w).

(** [try: body / except Exception as e: handler(e)] *)
Definition try_except (body : M unit) (handler : Exn -> M unit) : M unit :=
  fun w => match body w with
           | (Ok a, w') => (Ok a, w')
           | (Raise e, w') => handler e w'
           end.

Notation "x <- c1 ;; c2" := (bind c1 (fun x => c2))
  (at level 100, c1 at next level, right associativity).
Notation "c1 ;; c2" := (bind c1 (fun _ => c2))
  (at level 100, right associativity).

Section Run.

Variable env : Env.
Variable self : Fields.

(** The start of every step of the worker: a call of [stop] that the GUI
    thread makes just before the step takes effect, and the step is
    counted. *)
Definition tick (w : World) : World :=
  let w' := if stop_calls env (clock w) then stop w else w in
  {| is_running := is_running w'; clock := S (clock w'); trace := trace w' |}.

Definition emit (m : Message) : M unit :=
  fun w => (Ok tt, log (Update m) (tick w)).

Definition emit_finished : M unit :=
  fun w => (Ok tt, log Finished (tick w)).

Definition serial_open : M unit :=
  fun w => match open_error env with
           | Some e => (Raise e, tick w)
           | None => (Ok tt, log Open (tick w))
           end.

Definition ser_write (data : list byte) : M unit :=
  fun w => match write_error env (clock w) with
           | Some e => (Raise e, tick w)
           | None => (Ok tt, log (Write data) (tick w))
           end.

Definition ser_flush : M unit :=
  fun w => match flush_error env (clock w) with
           | Some e => (Raise e, tick w)
           | None => (Ok tt, log Flush (tick w))
           end.

Definition ser_readline : M (list byte) :=
  fun w => match readline_result env (clock w) with
           | Raise e => (Raise e, tick w)
           | Ok raw => (Ok raw, log (Readline raw) (tick w))
           end.

Definition ser_close : M unit :=
  fun w => (Ok tt, log Close (tick w)).

(** [time.sleep(d)] *)
Definition sleep (d : float) : M unit :=
  fun w => match Py.time_sleep (monotonic env (clock w)) d with
           | Some e => (Raise e, tick w)
           | None => (Ok tt, log (Sleep d) (tick w))
           end.

(** Reading [self._is_running]. *)
Definition get_is_running : M bool :=
  fun w => let w' := tick w in (Ok (is_running w'), w').

(** Lines 51 to 58: the text of the frame of one command. *)
Definition full_command (c : Command) : string :=
  let '(cmd, param) := c in
  let base_command :=
    match param with
    | Some p => if negb (Py.is_empty p) then cmd +:+ " " +:+ p else cmd
    | None => cmd
    end in
  if append_newline self then base_command +:+ Py.CRLF
  else base_command +:+ Py.CR.

(** Lines 61 to 64: [for ch in full_command]. *)
Fixpoint write_chars (text : string) : M unit :=
  match text with
  | EmptyString => ret tt
  | String ch rest =>
      data <- lift (Py.encode (String ch EmptyString)) ;;
      ser_write data ;;
      ser_flush ;;
      sleep (tx_delay self) ;;
      write_chars rest
  end.

(** Lines 60 to 67: the transmission of a frame. *)
Definition transmit (text : string) : M unit :=
  if PrimFloat.ltb 0 (tx_delay self) then write_chars text
  else
    data <- lift (Py.encode text) ;;
    ser_write data ;;
    ser_flush.

(** Lines 69 to 73: the text reported for the bytes read. *)
Definition response_text (raw_response : list byte) : string :=
  match raw_response with
  | [] => "No response"
  | _ :: _ => Py.rstrip (Py.decode_ignore raw_response) Py.CRLF
  end.

(** Lines 68 to 74: the wait and the read that follow the transmission. *)
Definition receive : M unit :=
  sleep (command_delay self) ;;
  raw_response <- ser_readline ;;
  emit (Received (response_text raw_response)).

(** Lines 51 to 74: the body of the loop, after the test of
    [self._is_running]. *)
Definition exchange (c : Command) : M unit :=
  emit (Sending (Py.strip (full_command c))) ;;
  transmit (full_command c) ;;
  receive.

(** Lines 48 to 74: [for cmd, param in self.commands], with its [break]. *)
Fixpoint for_commands (cs : list Command) : M unit :=
  match cs with
  | [] => ret tt
  | c :: rest =>
      running <- get_is_running ;;
      if negb running then ret tt
      else exchange c ;; for_commands rest
  end.

(** [run] *)
Definition run : M unit :=
  try_except
    (serial_open ;;
     for_commands (commands self) ;;
     ser_close)
    (fun e => emit (Error e)) ;;
  emit_finished.

End Run.

(** The signals emitted, in order: the observer's view of a trace. *)
Definition emitted (tr : list Action) : list Action :=
  List.filter (fun a => match a with Update _ | Finished => true | _ => false end) tr.

(** The bytes put on the wire, in order. *)
Fixpoint written (tr : list Action) : list byte :=
  match tr with
  | [] => []
  | Write data :: tr' => data ++ written tr'
  | _ :: tr' => written tr'
  end.

(** The trace of a whole run of a fresh worker. *)
Definition run_trace (env : Env) (self : Fields) : list Action :=
  trace (snd (run env self init)).

(** *** Vocabulary of the properties *)

(** A worker for the commands [cs], with the default of [__init__] for the
    delay before the read: 0.06, the float 0x1.eb851eb851eb8p-5. *)
Definition worker (cs : list Command) (newline : bool) (tx : float) : Fields :=
  {| commands := cs; append_newline := newline; tx_delay := tx;
     command_delay := 0x1.eb851eb851eb8p-5 |}.

(** The same worker with another delay between the write and the read. *)
Definition with_command_delay (d : float) (self : Fields) : Fields :=
  {| commands := commands self; append_newline := append_newline self;
     tx_delay := tx_delay self; command_delay := d |}.


(** The same worker with another per-byte delay. *)
Definition with_tx_delay (d : float) (self : Fields) : Fields :=
  {| commands := commands self; append_newline := append_newline self;
     tx_delay := d; command_delay := command_delay self |}.

(** A command whose name and parameter are ASCII text. *)
Definition ascii_command (c : Command) : bool :=
  Py.isascii (fst c) && match snd c with
                        | Some p => Py.isascii p
                        | None => true
                        end.

(** A transport on which every call succeeds, on a machine whose monotonic
    clock reads about one hour. The device answers the read made at step
    [t] with [answer t], which may be empty. *)
Definition reliable (answer : nat -> list byte) (stops : nat -> bool) : Env :=
  {| open_error := None;
     write_error := fun _ => None;
     flush_error := fun _ => None;
     readline_result := fun t => Ok (answer t);
     stop_calls := stops;
     monotonic := fun _ => 3600000000000%Z |}.

(** No transport call raises. *)
Definition transport_ok (env : Env) : Prop :=
  open_error env = None
  /\ (forall t, write_error env t = None)
  /\ (forall t, flush_error env t = None)
  /\ (forall t, exists raw, readline_result env t = Ok raw).

(** [stop] is never called. *)
Definition never_stopped (env : Env) : Prop :=
  forall t, stop_calls env t = false.

(** [time.sleep] accepts the delay [d] whenever the worker calls it. *)
Definition sleeps (env : Env) (d : float) : Prop :=
  forall t, Py.time_sleep (monotonic env t) d = None.

(** A delay from zero to less than 2^62 nanoseconds, about 146 years. *)
Definition short_delay (d : float) : bool :=
  match Py.sleep_timeout d with
  | Ok timeout => (timeout <? 2 ^ 62)%Z
  | Raise _ => false
  end.

(** The environment [env] without its calls of [stop]. *)
Definition quiet (env : Env) : Env :=
  {| open_error := open_error env;
     write_error := write_error env;
     flush_error := flush_error env;
     readline_result := readline_result env;
     stop_calls := fun _ => false;
     monotonic := monotonic env |}.

(** The Sending and Received signals of the commands [cs] answered by the
    texts [rs], pair after pair. *)
Fixpoint pairs (self : Fields) (cs : list Command) (rs : list string)
  : list Action :=
  match cs, rs with
  | c :: cs', r :: rs' =>
      Update (Sending (Py.strip (full_command self c)))
      :: Update (Received r) :: pairs self cs' rs'
  | _, _ => []
  end.

(** The observer sees one Sending and one Received signal per command, in
    the order of the list, then the finished signal, and nothing else. *)
Definition session_in_pairs (env : Env) (self : Fields) : Prop :=
  exists rs : list string,
    length rs = length (commands self)
    /\ emitted (run_trace env self) = pairs self (commands self) rs ++ [Finished].





(** [self._is_running] is false exactly when [stop] has been called. *)
Definition flag_inv (env : Env) (w : World) : Prop :=
  is_running w = negb (existsb (stop_calls env) (seq 0 (clock w))).

(** Two worlds with the same clock and the same trace. *)
Definition agree (w1 w2 : World) : Prop :=
  clock w1 = clock w2 /\ trace w1 = trace w2.

(** [Keeps env m]: the computation [m] keeps the flag in step with the calls
    of [stop]. *)
Definition Keeps (env : Env) {A} (m : M A) : Prop :=
  forall w, flag_inv env w -> flag_inv env (snd (m w)).

(** [Sim m1 m2]: from worlds that agree, [m1] and [m2] give the same result
    and worlds that agree. *)
Definition Sim {A} (m1 m2 : M A) : Prop :=
  forall w1 w2, agree w1 w2 ->
                fst (m1 w1) = fst (m2 w2) /\ agree (snd (m1 w1)) (snd (m2 w2)).


(** A transport that never fails, with a device that never answers, and a
    GUI that never calls [stop]. *)
Definition silent_device : Env := reliable (fun _ => []) (fun _ => false).

(** A transport that never fails, with a device that never answers, and a
    GUI that calls [stop] once, just before step [t0] of the worker. *)
Definition stop_at (t0 : nat) : Env :=
  reliable (fun _ => []) (fun t => Nat.eqb t t0).

(** A transport on which every write fails. *)
Definition failing_writes : Env :=
  {| open_error := None;
     write_error := fun _ => Some (SerialException "write failed");
     flush_error := fun _ => None;
     readline_result := fun _ => Ok [];
     stop_calls := fun _ => false;
     monotonic := fun _ => 3600000000000%Z |}.

(** The character U+00E9, which is not ASCII. *)
Definition e_acute : string := String "233" EmptyString.

(** The actions of the exchanges: what the loop of [run] can do. *)
Definition exchange_action (a : Action) : bool :=
  match a with
  | Write _ | Flush | Sleep _ | Readline _
  | Update (Sending _) | Update (Received _) => true
  | _ => false
  end.

(** [Logs P m]: the computation [m] only adds actions to the trace, and every
    action it adds satisfies [P]. *)
Definition Logs (P : Action -> bool) {A} (m : M A) : Prop :=
  forall w, exists acts : list Action,
    trace (snd (m w)) = trace w ++ acts /\ forallb P acts = true.

(** The frames of the commands [cs], one after the other, as bytes. *)
Definition wire_of (self : Fields) (cs : list Command) : list byte :=
  flat_map (fun c => Py.bytes (full_command self c)) cs.

(** What [ser.readline()] returns when the bytes [bs] written by the device
    arrive before the read timeout: the bytes up to and including the first
    line feed, or all of them when there is none. *)
Fixpoint readline_from (bs : list byte) : list byte :=
  match bs with
  | [] => []
  | b :: bs' => if Byte.eqb b Chiller.LF then [b] else b :: readline_from bs'
  end.

End SerialWorker.

(** ** main.py: the command lists of the main window *)

Module MainWindow.

Import SerialWorker.

(** The dictionary stored with a custom item of the unified list:
    {"custom": True, "accepts_param": ..., "id": ...}. *)
Record UData : Type := {
  custom : bool;
  accepts_param : bool;
  id : nat
}.

(** An item of [command_list]: its text, its check state and its data,
    [None] for a standard command. *)
Record Item : Type := {
  text : string;
  checked : bool;
  data : option UData
}.

(** An item of [custom_list_display], with the id of its data. Items are told
    apart by their ids, which [add_custom_command] never gives twice. *)
Record CustomItem : Type := {
  ctext : string;
  cid : nat
}.

(** The state of the window that the command lists use. A value of
    [out_params_widgets] is the text of the line edit. *)
Record Window : Type := {
  command_list : list Item;
  custom_list_display : list CustomItem;
  out_params_widgets : gmap string string;
  custom_command_counter : nat;
  custom_command_edit : string;
  custom_param_checkbox : bool
}.

(** A standard command, checked. *)
Definition standard (cmd : string) : Item :=
  {| text := cmd; checked := true; data := None |}.

(** The window after [__init__]. *)
Definition initial : Window :=
  {| command_list :=
       map standard
         ["VERSION"; "status"; "in_mode_05"; "in_mode_04"; "in_sp_06";
          "in_sp_00"; "in_pv_00"; "in_pv_02"; "in_pv_01"; "out_sp_00";
          "out_mode_05"];
     custom_list_display := [];
     out_params_widgets := <["out_sp_00" := "24.00"]> (<["out_mode_05" := "1"]> ∅);
     custom_command_counter := 0;
     custom_command_edit := "";
     custom_param_checkbox := false |}.

Definition set_checked (b : bool) (it : Item) : Item :=
  {| text := text it; checked := b; data := data it |}.

Definition with_command_list (l : list Item) (w : Window) : Window :=
  {| command_list := l;
     custom_list_display := custom_list_display w;
     out_params_widgets := out_params_widgets w;
     custom_command_counter := custom_command_counter w;
     custom_command_edit := custom_command_edit w;
     custom_param_checkbox := custom_param_checkbox w |}.

(** [select_all] *)
Definition select_all (w : Window) : Window :=
  with_command_list (map (set_checked true) (command_list w)) w.

(** [deselect_all] *)
Definition deselect_all (w : Window) : Window :=
  with_command_list (map (set_checked false) (command_list w)) w.

(** [add_custom_command] *)
Definition add_custom_command (w : Window) : Window :=
  let cmd_text := Py.strip (custom_command_edit w) in
  if Py.is_empty cmd_text then w
  else
    let accepts := custom_param_checkbox w in
    let cmd_id := S (custom_command_counter w) in
    {| command_list :=
         command_list w
         ++ [{| text := cmd_text; checked := true;
                data := Some {| custom := true; accepts_param := accepts;
                                id := cmd_id |} |}];
       custom_list_display :=
         custom_list_display w ++ [{| ctext := cmd_text; cid := cmd_id |}];
       out_params_widgets :=
         match out_params_widgets w !! cmd_text with
         | None => if accepts then <[cmd_text := ""]> (out_params_widgets w)
                   else out_params_widgets w
         | Some _ => out_params_widgets w
         end;
       custom_command_counter := cmd_id;
       custom_command_edit := "";
       custom_param_checkbox := false |}.

(** The test of line 393: a custom item with the id [cmd_id]. *)
Definition matches (cmd_id : nat) (it : Item) : bool :=
  match data it with
  | Some udata => custom udata && Nat.eqb (id udata) cmd_id
  | None => false
  end.

(** Lines 389 to 394: the indices of the items to remove, counted from [i]. *)
Fixpoint indices_to_remove (i cmd_id : nat) (l : list Item) : list nat :=
  match l with
  | [] => []
  | it :: l' =>
      if matches cmd_id it then i :: indices_to_remove (S i) cmd_id l'
      else indices_to_remove (S i) cmd_id l'
  end.

(** Lines 396 to 399: one item taken from the unified list, and its entry
    deleted from the parameter widgets. Nothing is taken at an index out of
    range, and the call of [text] on the missing item fails: [None]. *)
Definition take_at (st : list Item * gmap string string) (index : nat)
  : option (list Item * gmap string string) :=
  let (l, widgets) := st in
  match nth_error l index with
  | Some removed_item =>
      Some (firstn index l ++ skipn (S index) l,
            match widgets !! text removed_item with
            | Some _ => delete (text removed_item) widgets
            | None => widgets
            end)
  | None => None
  end.

(** Line 395: the loop over the indices. *)
Fixpoint take_all (indices : list nat) (st : list Item * gmap string string)
  : option (list Item * gmap string string) :=
  match indices with
  | [] => Some st
  | index :: rest =>
      match take_at st index with
      | Some st' => take_all rest st'
      | None => None
      end
  end.

(** Lines 387 and 388: the row of the item is taken out of the display; an
    item that is not in the list has no row and nothing is taken. *)
Fixpoint take_row (cmd_id : nat) (l : list CustomItem) : list CustomItem :=
  match l with
  | [] => []
  | it :: l' => if Nat.eqb (cid it) cmd_id then l' else it :: take_row cmd_id l'
  end.

(** Lines 384 to 399: the body of the loop over the selected items. *)
Definition delete_one (w : Window) (item : CustomItem) : option Window :=
  let cmd_id := cid item in
  match take_all (rev (indices_to_remove 0 cmd_id (command_list w)))
          (command_list w, out_params_widgets w) with
  | Some (l, widgets) =>
      Some {| command_list := l;
              custom_list_display := take_row cmd_id (custom_list_display w);
              out_params_widgets := widgets;
              custom_command_counter := custom_command_counter w;
              custom_command_edit := custom_command_edit w;
              custom_param_checkbox := custom_param_checkbox w |}
  | None => None
  end.

(** [delete_selected_custom_commands] on the selected items. *)
Fixpoint delete_selected_custom_commands
    (selected_items : list CustomItem) (w : Window) : option Window :=
  match selected_items with
  | [] => Some w
  | item :: rest =>
      match delete_one w item with
      | Some w' => delete_selected_custom_commands rest w'
      | None => None
      end
  end.

(** Lines 415 and 420: the parameter read from the widget of [cmd]. *)
Definition param_text (widgets : gmap string string) (cmd : string) : string :=
  match widgets !! cmd with
  | Some t => Py.strip t
  | None => ""
  end.

(** Lines 410 to 423: the command sent for a checked item. *)
Definition command_of (widgets : gmap string string) (item : Item) : Command :=
  let cmd := text item in
  match data item with
  | Some custom_data =>
      if accepts_param custom_data then (cmd, Some (param_text widgets cmd))
      else (cmd, None)
  | None =>
      if String.eqb cmd "out_sp_00" || String.eqb cmd "out_mode_05"
      then (cmd, Some (param_text widgets cmd))
      else (cmd, None)
  end.

(** Lines 406 to 423 of [start_communication]: the list handed to the
    worker. *)
Fixpoint commands_to_send (widgets : gmap string string) (items : list Item)
  : list Command :=
  match items with
  | [] => []
  | item :: rest =>
      if checked item then command_of widgets item :: commands_to_send widgets rest
      else commands_to_send widgets rest
  end.

(** The commands that a click on the start button sends. *)
Definition commands_of_window (w : Window) : list Command :=
  commands_to_send (out_params_widgets w) (command_list w).

(** *** Vocabulary of the properties *)

(** The ids of the custom items of the unified list. *)
Definition custom_ids (l : list Item) : list nat :=
  flat_map (fun it => match data it with
                      | Some udata => [id udata]
                      | None => []
                      end) l.

(** The state that the operations of the window keep: the ids of the custom
    items are distinct and not above the counter, in both lists, and the
    text of every item is trimmed and not empty. *)
Definition window_ok (w : Window) : Prop :=
  NoDup (custom_ids (command_list w))
  /\ Forall (fun n => n <= custom_command_counter w)
            (custom_ids (command_list w))
  /\ NoDup (map cid (custom_list_display w))
  /\ Forall (fun n => n <= custom_command_counter w)
            (map cid (custom_list_display w))
  /\ Forall (fun it => Py.strip (text it) = text it /\ text it <> "")
            (command_list w).

(** The parameter widgets after the entries of the custom items with the id
    [cmd_id] are deleted, the last item first. *)
Fixpoint drop_texts (cmd_id : nat) (l : list Item) (widgets : gmap string string)
  : gmap string string :=
  match l with
  | [] => widgets
  | it :: l' =>
      if matches cmd_id it then delete (text it) (drop_texts cmd_id l' widgets)
      else drop_texts cmd_id l' widgets
  end.

(** A standard item: one without data. *)
Definition is_standard (it : Item) : bool :=
  match data it with
  | None => true
  | Some _ => false
  end.

(** An item that none of the selected items marks for removal. *)
Definition kept (selected_items : list CustomItem) (it : Item) : bool :=
  negb (existsb (fun s => matches (cid s) it) selected_items).

(** The window with [t] typed as a custom command, with or without a
    parameter. *)
Definition typed (t : string) (accepts : bool) (w : Window) : Window :=
  {| command_list := command_list w;
     custom_list_display := custom_list_display w;
     out_params_widgets := out_params_widgets w;
     custom_command_counter := custom_command_counter w;
     custom_command_edit := t;
     custom_param_checkbox := accepts |}.

End MainWindow.

(** * Properties *)

(** ** Facts about the built-ins *)

Section PyFacts.

(** [time.sleep] at some delays, one hour after the start of the machine:
    the default of the worker and a delay of nine thousand million seconds
    are accepted; a negative delay and NaN raise ValueError; a delay of ten
    thousand million seconds and the infinities raise OverflowError; and a
    delay of 9223372036 seconds, which fits in 64 bits of nanoseconds, is
    refused by the system, because its deadline does not. *)
Example time_sleep_values :
  let now := 3600000000000%Z in
  Py.time_sleep now 0 = None
  /\ Py.time_sleep now 0x1.eb851eb851eb8p-5 = None
  /\ Py.time_sleep now 9e9 = None
  /\ Py.time_sleep now (-1) = Some ValueError
  /\ Py.time_sleep now (-0x1p-1074) = Some ValueError
  /\ Py.time_sleep now nan = Some ValueError
  /\ Py.time_sleep now 0x1p63 = Some OverflowError
  /\ Py.time_sleep now 1e10 = Some OverflowError
  /\ Py.time_sleep now (-1e10) = Some OverflowError
  /\ Py.time_sleep now infinity = Some OverflowError
  /\ Py.time_sleep now neg_infinity = Some OverflowError
  /\ Py.time_sleep now 9223372036 = Some OSError.
Proof. repeat split. Qed.

(** A short delay is accepted at any reading of a clock that is itself
    below 2^62 nanoseconds. *)
Lemma short_delay_sleeps (env : SerialWorker.Env) (d : float) :
  (forall t, (0 <= SerialWorker.monotonic env t < 2 ^ 62)%Z) ->
  SerialWorker.short_delay d = true ->
  SerialWorker.sleeps env d.
Proof.
  intros Hclock Hd t. unfold SerialWorker.short_delay in Hd.
  unfold Py.time_sleep. destruct (Py.sleep_timeout d) as [timeout|e];
    [|discriminate].
  apply Z.ltb_lt in Hd. specialize (Hclock t).
  replace (2 ^ 63 - 1 <? SerialWorker.monotonic env t + timeout)%Z with false;
    [reflexivity|].
  symmetry. apply Z.ltb_ge.
  change (2 ^ 63)%Z with (2 ^ 62 + 2 ^ 62)%Z. lia.
Qed.

Lemma append_cons (c : ascii) (s t : string) :
  String c s +:+ t = String c (s +:+ t).
Proof. reflexivity. Qed.

Lemma append_empty_l (t : string) : "" +:+ t = t.
Proof. reflexivity. Qed.

Lemma append_empty_r (s : string) : s +:+ "" = s.
Proof.
  induction s as [|c s IH]; [reflexivity|].
  rewrite append_cons. f_equal. exact IH.
Qed.

Lemma append_assoc (s t u : string) : (s +:+ t) +:+ u = s +:+ t +:+ u.
Proof.
  induction s as [|c s IH]; [reflexivity|].
  rewrite !append_cons. f_equal. exact IH.
Qed.

(** [split] finds the first separator. *)
Lemma split1_found (sep : ascii) (hd tl : string) :
  Py.char_in sep hd = false ->
  Py.split1 (hd +:+ String sep tl) sep = [hd; tl].
Proof.
  induction hd as [|c hd IH]; intros H.
  - rewrite append_empty_l. simpl. now rewrite Ascii.eqb_refl.
  - rewrite append_cons. simpl in *.
    apply orb_false_iff in H as [Hc Hhd].
    rewrite Ascii.eqb_sym, Hc, (IH Hhd). reflexivity.
Qed.

(** Without a separator there is one part. *)
Lemma split1_none (sep : ascii) (s : string) :
  Py.char_in sep s = false -> Py.split1 s sep = [s].
Proof.
  induction s as [|c s IH]; simpl; intros H; [reflexivity|].
  apply orb_false_iff in H as [Hc Hs].
  rewrite Ascii.eqb_sym, Hc, (IH Hs). reflexivity.
Qed.

End PyFacts.

(** ** The device responder *)

Section Responder.

Import Chiller.

(** C3. For a non-empty trimmed line the response follows the ordered
    classification: a line that starts with "out_sp_00" is answered
    "Setpoint updated to " and the remainder after its first space, or
    "Missing parameter for out_sp_00" when it has no space; otherwise a line
    that starts with "out_mode_05" is answered "Chiller turned on" when the
    remainder is "1", "Chiller turned off" for another remainder, and
    "Missing parameter for out_mode_05" without one; otherwise the answer
    is the entry of the table for the whole line, or "OK". *)
Theorem respond_classification (data : string) :
  data <> "" ->
  (Py.startswith data "out_sp_00" = true ->
     (forall hd remainder,
         data = hd +:+ " " +:+ remainder -> Py.char_in " " hd = false ->
         respond data = "Setpoint updated to " +:+ remainder)
     /\ (Py.char_in " " data = false ->
         respond data = "Missing parameter for out_sp_00"))
  /\ (Py.startswith data "out_sp_00" = false ->
      Py.startswith data "out_mode_05" = true ->
      (forall hd remainder,
          data = hd +:+ " " +:+ remainder -> Py.char_in " " hd = false ->
          respond data = if String.eqb remainder "1" then "Chiller turned on"
                         else "Chiller turned off")
      /\ (Py.char_in " " data = false ->
          respond data = "Missing parameter for out_mode_05"))
  /\ (Py.startswith data "out_sp_00" = false ->
      Py.startswith data "out_mode_05" = false ->
      respond data = match RESPONSES !! data with
                     | Some response => response
                     | None => "OK"
                     end).
Proof.
  intros _. unfold respond. split; [|split].
  - intros Hsp. rewrite Hsp. split.
    + intros hd remainder -> Hhd.
      change (hd +:+ " " +:+ remainder) with (hd +:+ String " " remainder).
      now rewrite (split1_found _ _ _ Hhd).
    + intros Hno. now rewrite (split1_none _ _ Hno).
  - intros Hsp Hmode. rewrite Hsp, Hmode. split.
    + intros hd remainder -> Hhd.
      change (hd +:+ " " +:+ remainder) with (hd +:+ String " " remainder).
      now rewrite (split1_found _ _ _ Hhd).
    + intros Hno. now rewrite (split1_none _ _ Hno).
  - intros Hsp Hmode. rewrite Hsp, Hmode. now destruct (RESPONSES !! data).
Qed.

Lemma respond_classification_witness :
  "out_sp_00 5.00" <> ""
  /\ respond "out_sp_00 5.00" = "Setpoint updated to 5.00".
Proof.
  split; [discriminate|].
  destruct (respond_classification "out_sp_00 5.00") as [Hsp _];
    [discriminate|].
  destruct (Hsp eq_refl) as [Hfound _].
  exact (Hfound "out_sp_00" "5.00" eq_refl eq_refl).
Defined.

(** C4. Each command of the response table, sent with no parameter, is
    answered with the text the table gives for it: "VERSION" with
    "JULABO_V3.0", "status" with "03 REMOTE START", and so on to "in_pv_01"
    with "-100". The simulator writes that text and the line end. *)
Theorem table_commands_answered :
  Forall (fun entry : string * string =>
            let (c, text) := entry in
            RESPONSES !! c = Some text
            /\ respond c = text
            /\ simulate_chiller 1 (line_of c)
               = ([Py.bytes (text +:+ Py.CRLF)], None))
         [("VERSION", "JULABO_V3.0"); ("status", "03 REMOTE START");
          ("in_mode_05", "1"); ("in_mode_04", "0"); ("in_sp_06", "14.55");
          ("in_sp_00", "2.00"); ("in_pv_00", "14.55");
          ("in_pv_02", "---.--"); ("in_pv_01", "-100")]
  /\ size RESPONSES = 9.
Proof.
  split; [|vm_compute; reflexivity].
  repeat (constructor; [repeat split; vm_compute; reflexivity|]).
  constructor.
Qed.

(** A leading line feed is trimmed away before the line is classified. *)
Lemma handle_lf (raw : list byte) : handle (LF :: raw) = handle raw.
Proof.
  unfold handle. simpl Py.decode.
  change (Py.is_ascii (ascii_of_byte LF)) with true. cbv iota.
  destruct (Py.decode raw) as [text|e]; reflexivity.
Qed.

Lemma lf_inserted_refl (s : list RxItem) : lf_inserted s s.
Proof. induction s; constructor; assumption. Qed.

Lemma read_until_inserted (s1 s2 : list RxItem) :
  lf_inserted s1 s2 ->
  fst (read_until s1) = fst (read_until s2)
  /\ lf_pending (snd (read_until s1)) (snd (read_until s2)).
Proof.
  induction 1 as [|x s1 s2 Hins [IHl IHr]|s1 s2 Hins _].
  - split; [reflexivity | left; constructor].
  - destruct x as [b|]; simpl.
    + destruct (Byte.eqb b CR).
      * split; [reflexivity | now left].
      * destruct (read_until s1) as [l1 r1], (read_until s2) as [l2 r2].
        simpl in *. split; [now f_equal | assumption].
    + split; [reflexivity | now left].
  - simpl. change (Byte.eqb CR CR) with true. cbv iota. simpl.
    split; [reflexivity | right; eauto].
Qed.

Lemma read_until_pending (s1 s2 : list RxItem) :
  lf_pending s1 s2 ->
  handle (fst (read_until s1)) = handle (fst (read_until s2))
  /\ lf_pending (snd (read_until s1)) (snd (read_until s2)).
Proof.
  intros [Hins | (s1' & -> & Hins)];
    destruct (read_until_inserted _ _ Hins) as [Hl Hr].
  - now rewrite Hl.
  - simpl. change (Byte.eqb LF CR) with false. cbv iota.
    destruct (read_until s1') as [l1 r1]. simpl in *.
    now rewrite handle_lf, Hl.
Qed.

(** Pass by pass, the simulator answers a stream with inserted line feeds as
    it answers the stream without them. *)
Lemma simulate_pending (n : nat) :
  forall s1 s2, lf_pending s1 s2 ->
                simulate_chiller n s1 = simulate_chiller n s2.
Proof.
  induction n as [|n IH]; intros s1 s2 Hp; [reflexivity|].
  destruct (read_until_pending _ _ Hp) as [Hh Hr]. simpl.
  destruct (read_until s1) as [l1 r1], (read_until s2) as [l2 r2].
  simpl in *. rewrite Hh.
  destruct (handle l2) as [[out|]|e]; [|now apply IH|reflexivity].
  now rewrite (IH _ _ Hr).
Qed.

Lemma frames_lf_inserted (cmds : list (list byte)) :
  lf_inserted (frames [CR; LF] cmds) (frames [CR] cmds).
Proof.
  induction cmds as [|c cmds IH]; [constructor|].
  unfold frames in *. simpl.
  induction c as [|b c IHc]; simpl.
  - now constructor.
  - now constructor.
Qed.

(** C10. Commands terminated with carriage return and line feed are
    answered as the same commands terminated with a carriage return alone:
    the simulator reads up to the carriage return, the line feed left
    behind opens the next line, and the trim removes it before the line is
    classified. After any number of passes of the loop the simulator has
    written the same responses for both streams. *)
Theorem crlf_frames_as_cr_frames (n : nat) (cmds : list (list byte)) :
  simulate_chiller n (frames [CR; LF] cmds)
  = simulate_chiller n (frames [CR] cmds).
Proof.
  apply simulate_pending. left. apply frames_lf_inserted.
Qed.

End Responder.

(** ** The frame codec *)

Section Codec.

Import SerialWorker.

Lemma all_chars_app (p : ascii -> bool) (s t : string) :
  Py.all_chars p (s +:+ t) = Py.all_chars p s && Py.all_chars p t.
Proof.
  induction s as [|c s IH]; [reflexivity|].
  rewrite append_cons. simpl. now rewrite IH, andb_assoc.
Qed.

(** ASCII text encodes to its bytes. *)
Lemma encode_isascii (s : string) :
  Py.isascii s = true -> Py.encode s = Ok (Py.bytes s).
Proof.
  induction s as [|c s IH]; [reflexivity|].
  unfold Py.isascii. simpl. intros [Hc Hs]%andb_true_iff.
  rewrite Hc. unfold Py.isascii in IH. now rewrite (IH Hs).
Qed.

(** Text that encodes is ASCII. *)
Lemma encode_ok_isascii (s : string) (bs : list byte) :
  Py.encode s = Ok bs -> Py.isascii s = true.
Proof.
  revert bs. induction s as [|c s IH]; [reflexivity|].
  unfold Py.isascii. simpl. intros bs.
  destruct (Py.is_ascii c); [|discriminate].
  destruct (Py.encode s) as [bs'|e]; [|discriminate].
  intros _. now apply (IH bs').
Qed.

Lemma decode_ignore_bytes (s : string) :
  Py.isascii s = true -> Py.decode_ignore (Py.bytes s) = s.
Proof.
  induction s as [|c s IH]; [reflexivity|].
  unfold Py.isascii. simpl. intros [Hc Hs]%andb_true_iff.
  rewrite ascii_of_byte_of_ascii, Hc. f_equal. now apply IH.
Qed.

(** The text of a frame, case by case. *)
Lemma full_command_text (self : Fields) (name : string) (param : option string) :
  full_command self (name, param)
  = (match param with
     | Some p => if String.eqb p "" then name else name +:+ " " +:+ p
     | None => name
     end) +:+ (if append_newline self then Py.CRLF else Py.CR).
Proof.
  unfold full_command.
  destruct param as [[|c p]|]; destruct (append_newline self); reflexivity.
Qed.

(** C5, as amended. For a command whose name and parameter are ASCII text,
    the frame encodes, and the encoded frame is the bytes of the name, then
    of a space and the parameter when the parameter is neither absent nor
    empty, then of "\r\n" when [append_newline] is set and of "\r"
    otherwise. The frame is the same whatever the two delays are, and
    encoding it leaves the world as it is. *)
Theorem frame_of_command (self : Fields) (name : string) (param : option string) :
  ascii_command (name, param) = true ->
  Py.encode (full_command self (name, param))
  = Ok (Py.bytes
          ((match param with
            | Some p => if String.eqb p "" then name else name +:+ " " +:+ p
            | None => name
            end) +:+ (if append_newline self then Py.CRLF else Py.CR)))
  /\ (forall tx d : float,
        full_command (with_command_delay d (with_tx_delay tx self)) (name, param)
        = full_command self (name, param))
  /\ forall w, snd (lift (Py.encode (full_command self (name, param))) w) = w.
Proof.
  intros [Hn Hp]%andb_true_iff. simpl in Hn, Hp.
  split; [|split; reflexivity].
  rewrite full_command_text. apply encode_isascii.
  assert (Hterm : Py.isascii (if append_newline self then Py.CRLF else Py.CR)
                  = true) by now destruct (append_newline self).
  unfold Py.isascii in *. rewrite all_chars_app, Hterm, andb_true_r.
  destruct param as [p|]; [|exact Hn].
  destruct (String.eqb p ""); [exact Hn|].
  rewrite all_chars_app, Hn. exact Hp.
Qed.

Lemma frame_of_command_witness :
  Py.encode (full_command (worker [] true 0) ("out_sp_00", Some "5.00"))
  = Ok (Py.bytes ("out_sp_00" +:+ " " +:+ "5.00" +:+ Py.CRLF)).
Proof.
  apply (frame_of_command (worker [] true 0) "out_sp_00" (Some "5.00")).
  reflexivity.
Defined.

(** C5, as stated, fails for a command that is not ASCII: the command of
    name U+00E9 has no encoded frame, with either line end. The encoding of
    its frame raises, and a session that sends it reports the error instead
    of writing a frame. *)
Lemma frame_not_encoded_beyond_ascii :
  (forall self : Fields,
      Py.encode (full_command self (e_acute, None)) = Raise UnicodeEncodeError)
  /\ run_trace silent_device (worker [(e_acute, None)] false 0)
     = [Open; Update (Sending e_acute); Update (Error UnicodeEncodeError);
        Finished].
Proof.
  split; [|reflexivity].
  intros self. unfold full_command. now destruct (append_newline self).
Qed.

(** *** Trimming *)

Lemma rstrip_by_all (p : ascii -> bool) (t : string) :
  Py.all_chars p t = true -> Py.rstrip_by p t = "".
Proof.
  induction t as [|c t IH]; [reflexivity|].
  simpl. intros [Hc Ht]%andb_true_iff. now rewrite (IH Ht), Hc.
Qed.

(** A suffix made of stripped characters disappears. *)
Lemma rstrip_by_app (p : ascii -> bool) (s t : string) :
  Py.all_chars p t = true -> Py.rstrip_by p (s +:+ t) = Py.rstrip_by p s.
Proof.
  intros Ht. induction s as [|c s IH].
  - rewrite append_empty_l. now apply rstrip_by_all.
  - rewrite append_cons. simpl. now rewrite IH.
Qed.

Lemma rstrip_by_idem (p : ascii -> bool) (s : string) :
  Py.rstrip_by p (Py.rstrip_by p s) = Py.rstrip_by p s.
Proof.
  induction s as [|c s IH]; [reflexivity|].
  simpl. destruct (Py.rstrip_by p s) as [|d r] eqn:E.
  - destruct (p c) eqn:Hc; [reflexivity|]. simpl. now rewrite Hc.
  - simpl in *. now rewrite IH.
Qed.

(** Text that a strip leaves alone is left alone by a strip of fewer
    characters. *)
Lemma rstrip_by_weaken (p q : ascii -> bool) (s : string) :
  (forall c, q c = true -> p c = true) ->
  Py.rstrip_by p s = s -> Py.rstrip_by q s = s.
Proof.
  intros Hqp. induction s as [|c s IH]; [reflexivity|].
  simpl. destruct (Py.rstrip_by p s) as [|d r] eqn:E.
  - destruct (p c) eqn:Hc; [discriminate|].
    intros [= <-]. simpl.
    destruct (q c) eqn:Hq; [|reflexivity].
    apply Hqp in Hq. congruence.
  - intros [= Hs]. rewrite (IH Hs). now rewrite <- Hs.
Qed.

Lemma strip_fixed_rstrip (s : string) :
  Py.strip s = s -> Py.rstrip_by Py.isspace s = s.
Proof.
  unfold Py.strip. intros H. rewrite <- H at 1.
  now rewrite rstrip_by_idem.
Qed.

Lemma char_in_crlf_isspace (c : ascii) :
  Py.char_in c Py.CRLF = true -> Py.isspace c = true.
Proof.
  unfold Py.CRLF. simpl. rewrite orb_false_r.
  intros [H|H]%orb_true_iff; apply Ascii.eqb_eq in H; subst; reflexivity.
Qed.

Lemma strip_fixed_crlf (s : string) :
  Py.strip s = s -> Py.rstrip_by (fun c => Py.char_in c Py.CRLF) s = s.
Proof.
  intros Hs. apply rstrip_by_weaken with (p := Py.isspace);
    [apply char_in_crlf_isspace | now apply strip_fixed_rstrip].
Qed.

(** Text that ends well still ends well with a prefix. *)
Lemma rstrip_by_app_fixed (q : ascii -> bool) (s t : string) :
  t <> "" -> Py.rstrip_by q t = t -> Py.rstrip_by q (s +:+ t) = s +:+ t.
Proof.
  intros Hne Ht. induction s as [|c s IH]; [assumption|].
  rewrite append_cons. simpl. rewrite IH.
  destruct (s +:+ t) as [|d r] eqn:E; [|reflexivity].
  destruct s; [|discriminate]. now rewrite append_empty_l in E.
Qed.

(** The line end of a frame is what [rstrip("\r\n")] removes. *)
Lemma rstrip_line_end (s : string) (newline : bool) :
  Py.rstrip_by (fun c => Py.char_in c Py.CRLF) s = s ->
  Py.rstrip (s +:+ (if newline then Py.CRLF else Py.CR)) Py.CRLF = s.
Proof.
  intros Hs. unfold Py.rstrip. rewrite rstrip_by_app; [assumption|].
  now destruct newline.
Qed.

Lemma all_chars_rstrip_by (p q : ascii -> bool) (s : string) :
  Py.all_chars p s = true -> Py.all_chars p (Py.rstrip_by q s) = true.
Proof.
  induction s as [|c s IH]; [reflexivity|].
  simpl. intros [Hc Hs]%andb_true_iff. specialize (IH Hs).
  destruct (Py.rstrip_by q s) as [|d r].
  - destruct (q c); [reflexivity|]. simpl. now rewrite Hc.
  - change (Py.all_chars p (String c (String d r)))
      with (p c && Py.all_chars p (String d r)).
    now rewrite Hc, IH.
Qed.

Lemma isascii_decode_ignore (bs : list byte) :
  Py.isascii (Py.decode_ignore bs) = true.
Proof.
  induction bs as [|b bs IH]; [reflexivity|].
  simpl. destruct (Py.is_ascii (ascii_of_byte b)) eqn:Hb; [|assumption].
  unfold Py.isascii in *. simpl. now rewrite Hb, IH.
Qed.

Lemma split1_single (sep : ascii) (s a : string) :
  Py.split1 s sep = [a] -> a = s.
Proof.
  revert a. induction s as [|c s IH]; intros a; simpl.
  - now intros [= <-].
  - destruct (Ascii.eqb c sep); [discriminate|].
    destruct (Py.split1 s sep) as [|hd tl]; [discriminate|].
    intros [= <- ->]. f_equal. now apply IH.
Qed.

(** C8, as amended. For a command whose name and parameter are ASCII text
    without leading or trailing white space, and whose name has no space,
    the frame encodes, and decoding the frame as a received line is decoded
    (invalid bytes dropped, line end stripped) then splitting at the first
    space gives back the name and the parameter; an absent or empty
    parameter comes back absent. This holds for both line ends. *)
Theorem frame_round_trip (self : Fields) (name : string) (param : option string) :
  Py.char_in " " name = false ->
  Py.strip name = name ->
  match param with Some p => Py.strip p = p | None => True end ->
  ascii_command (name, param) = true ->
  exists frame : list byte,
    Py.encode (full_command self (name, param)) = Ok frame
    /\ Py.split1 (Py.rstrip (Py.decode_ignore frame) Py.CRLF) " "
       = match param with
         | Some p => if String.eqb p "" then [name] else [name; p]
         | None => [name]
         end.
Proof.
  intros Hsp Hname Hparam [Han Hap]%andb_true_iff. simpl in Han, Hap.
  assert (Hterm : forall b : bool,
             Py.isascii (if b then Py.CRLF else Py.CR) = true)
    by (now intros []).
  assert (Hbare : exists frame : list byte,
             Py.encode (name +:+ (if append_newline self then Py.CRLF else Py.CR))
             = Ok frame
             /\ Py.split1 (Py.rstrip (Py.decode_ignore frame) Py.CRLF) " "
                = [name]).
  { eexists. split.
    - apply encode_isascii. unfold Py.isascii in *.
      now rewrite all_chars_app, Han, Hterm.
    - rewrite decode_ignore_bytes
        by (unfold Py.isascii in *; now rewrite all_chars_app, Han, Hterm).
      rewrite rstrip_line_end by now apply strip_fixed_crlf.
      now apply split1_none. }
  rewrite (full_command_text self name param).
  destruct param as [[|c p]|]; [exact Hbare| |exact Hbare].
  set (q := String c p) in *.
  change (String.eqb q "") with false. cbv iota.
  assert (Hq : Py.rstrip_by (fun c => Py.char_in c Py.CRLF) q = q)
    by now apply strip_fixed_crlf.
  assert (Hbase : Py.isascii ((name +:+ " " +:+ q)
                              +:+ (if append_newline self then Py.CRLF else Py.CR))
                  = true).
  { unfold Py.isascii in *. now rewrite !all_chars_app, Han, Hap, Hterm. }
  eexists. split; [now apply encode_isascii|].
  rewrite decode_ignore_bytes by assumption.
  rewrite rstrip_line_end.
  - change (name +:+ " " +:+ q) with (name +:+ String " " q).
    now apply split1_found.
  - apply rstrip_by_app_fixed; [discriminate|].
    now apply (rstrip_by_app_fixed _ " " q).
Qed.

Lemma frame_round_trip_witness :
  exists frame : list byte,
    Py.encode (full_command (worker [] true 0) ("out_sp_00", Some "5.00"))
    = Ok frame
    /\ Py.split1 (Py.rstrip (Py.decode_ignore frame) Py.CRLF) " "
       = ["out_sp_00"; "5.00"].
Proof.
  apply (frame_round_trip (worker [] true 0) "out_sp_00" (Some "5.00"));
    reflexivity.
Defined.

(** C8, as stated, fails for a name that is not ASCII: the name U+00E9 has
    no space and no white space around it, yet its frame does not encode,
    and no received line at all decodes to it. *)
Lemma round_trip_fails_beyond_ascii :
  Py.char_in " " e_acute = false
  /\ Py.strip e_acute = e_acute
  /\ Py.encode (full_command (worker [] false 0) (e_acute, None))
     = Raise UnicodeEncodeError
  /\ forall frame : list byte,
      Py.split1 (Py.rstrip (Py.decode_ignore frame) Py.CRLF) " " <> [e_acute].
Proof.
  repeat split; try reflexivity.
  intros frame H. apply split1_single in H.
  pose proof (all_chars_rstrip_by Py.is_ascii
                (fun c => Py.char_in c Py.CRLF) _
                (isascii_decode_ignore frame)) as Ha.
  unfold Py.rstrip in H. rewrite <- H in Ha. discriminate.
Qed.

End Codec.

(** ** The responses to a stream of frames *)

Section Answers.

Import Chiller.

Lemma bytes_app (s t : string) : Py.bytes (s +:+ t) = Py.bytes s ++ Py.bytes t.
Proof.
  induction s as [|c s IH]; [reflexivity|].
  rewrite append_cons. unfold Py.bytes, list_byte_of_string in *. simpl.
  now rewrite IH.
Qed.

Lemma decode_bytes (s : string) :
  Py.isascii s = true -> Py.decode (Py.bytes s) = Ok s.
Proof.
  induction s as [|c s IH]; [reflexivity|].
  unfold Py.isascii. simpl. intros [Hc Hs]%andb_true_iff.
  rewrite ascii_of_byte_of_ascii, Hc.
  unfold Py.isascii, Py.bytes, list_byte_of_string in IH. now rewrite (IH Hs).
Qed.

Lemma byte_of_ascii_cr (ch : ascii) :
  Ascii.eqb "013" ch = false -> Byte.eqb (byte_of_ascii ch) CR = false.
Proof.
  intros H. destruct (Byte.eqb (byte_of_ascii ch) CR) eqn:E; [|reflexivity].
  apply Byte.byte_dec_bl in E.
  apply (f_equal ascii_of_byte) in E. unfold CR in E.
  rewrite !ascii_of_byte_of_ascii in E. subst ch. discriminate H.
Qed.

(** A read returns the frame of a command that has no carriage return of
    its own. *)
Lemma read_until_frame (c : string) (rest : list RxItem) :
  Py.char_in "013" c = false ->
  read_until (map Rx (Py.bytes c ++ [CR]) ++ rest) = (Py.bytes c ++ [CR], rest).
Proof.
  induction c as [|ch c IH]; intros H.
  - reflexivity.
  - simpl in H. apply orb_false_iff in H as [Hch Hc].
    change (Py.bytes (String ch c)) with (byte_of_ascii ch :: Py.bytes c).
    simpl. rewrite (byte_of_ascii_cr _ Hch).
    change (map Rx (Py.bytes c ++ [CR]) ++ rest)
      with (map Rx (Py.bytes c ++ [CR]) ++ rest) in *.
    now rewrite (IH Hc).
Qed.

Lemma lstrip_by_app (p : ascii -> bool) (s t : string) :
  Py.all_chars p t = true ->
  Py.lstrip_by p (s +:+ t)
  = match Py.lstrip_by p s with
    | EmptyString => EmptyString
    | r => r +:+ t
    end.
Proof.
  intros Ht. induction s as [|c s IH].
  - rewrite append_empty_l. simpl.
    induction t as [|d t IHt]; [reflexivity|].
    simpl in *. apply andb_true_iff in Ht as [Hd Ht]. rewrite Hd. now apply IHt.
  - rewrite append_cons. simpl. destruct (p c); [exact IH | reflexivity].
Qed.

(** White space after a line does not change the trimmed line. *)
Lemma strip_app (s t : string) :
  Py.all_chars Py.isspace t = true -> Py.strip (s +:+ t) = Py.strip s.
Proof.
  intros Ht. unfold Py.strip. rewrite (lstrip_by_app _ _ _ Ht).
  destruct (Py.lstrip_by Py.isspace s) as [|c r]; [reflexivity|].
  now apply rstrip_by_app.
Qed.

Lemma all_chars_lstrip_by (p q : ascii -> bool) (s : string) :
  Py.all_chars p s = true -> Py.all_chars p (Py.lstrip_by q s) = true.
Proof.
  induction s as [|c s IH]; [reflexivity|].
  intros H. simpl. destruct (q c); [|exact H].
  simpl in H. apply andb_true_iff in H as [_ H]. now apply IH.
Qed.

Lemma isascii_strip (s : string) :
  Py.isascii s = true -> Py.isascii (Py.strip s) = true.
Proof.
  intros H. unfold Py.isascii, Py.strip.
  now apply all_chars_rstrip_by, all_chars_lstrip_by.
Qed.

Lemma isascii_split1 (s : string) (sep : ascii) :
  Py.isascii s = true ->
  Forall (fun part => Py.isascii part = true) (Py.split1 s sep).
Proof.
  induction s as [|c s IH]; intros H.
  - now repeat constructor.
  - unfold Py.isascii in H. simpl in H.
    apply andb_true_iff in H as [Hc Hs]. simpl.
    destruct (Ascii.eqb c sep); [now repeat constructor|].
    specialize (IH Hs). destruct (Py.split1 s sep) as [|hd tl]; [constructor|].
    inversion IH as [|? ? Hhd Htl]; subst. constructor; [|assumption].
    unfold Py.isascii in *. simpl. now rewrite Hc, Hhd.
Qed.

Lemma isascii_table (data : string) :
  Py.isascii (default "OK" (RESPONSES !! data)) = true.
Proof.
  unfold RESPONSES.
  repeat (rewrite lookup_insert; destruct (decide _); [reflexivity|]).
  now rewrite lookup_empty.
Qed.

(** The response to ASCII text is ASCII text. *)
Lemma isascii_respond (data : string) :
  Py.isascii data = true -> Py.isascii (respond data) = true.
Proof.
  intros H. unfold respond.
  pose proof (isascii_split1 data " " H) as Hparts.
  assert (Hnth : Py.isascii (nth 1 (Py.split1 data " ") "") = true).
  { destruct (Py.split1 data " ") as [|p0 [|p1 tl]]; try reflexivity.
    inversion Hparts as [|? ? _ Htl]; subst.
    now inversion Htl. }
  destruct (Py.startswith data "out_sp_00").
  - destruct (1 <? length (Py.split1 data " "))%nat; [|reflexivity].
    unfold Py.isascii in *. now rewrite all_chars_app, Hnth.
  - destruct (Py.startswith data "out_mode_05"); [|apply isascii_table].
    destruct (1 <? length (Py.split1 data " "))%nat; [|reflexivity].
    now destruct (String.eqb _ _).
Qed.

(** One pass of the loop on the frame of an ASCII command. *)
Lemma handle_frame (c : string) :
  Py.isascii c = true ->
  handle (Py.bytes c ++ [CR])
  = Ok (match answer_of c with
        | [] => None
        | out :: _ => Some out
        end).
Proof.
  intros Hc. unfold handle, answer_of.
  change [CR] with (Py.bytes Py.CR). rewrite <- bytes_app.
  rewrite decode_bytes
    by (unfold Py.isascii in *; now rewrite all_chars_app, Hc).
  rewrite (strip_app c Py.CR eq_refl).
  destruct (Py.is_empty (Py.strip c)) eqn:E; [reflexivity|]. simpl negb.
  cbv iota. rewrite encode_isascii; [reflexivity|].
  unfold Py.isascii. rewrite all_chars_app.
  fold (Py.isascii (respond (Py.strip c))).
  now rewrite isascii_respond by now apply isascii_strip.
Qed.

Lemma simulate_idle (n : nat) : simulate_chiller n [] = ([], None).
Proof. induction n as [|n IH]; [reflexivity|]. simpl. exact IH. Qed.

(** With enough passes of its loop, the simulator answers every frame of a
    stream of ASCII commands, in order. *)
Lemma frames_answered (cmds : list string) :
  Forall (fun c => Py.isascii c = true /\ Py.char_in "013" c = false) cmds ->
  forall n, length cmds <= n ->
            simulate_chiller n (frames [CR] (map Py.bytes cmds))
            = (flat_map answer_of cmds, None).
Proof.
  induction 1 as [|c cmds [Ha Hcr] Hcmds IH]; intros n Hn.
  - apply simulate_idle.
  - destruct n as [|n]; [simpl in Hn; lia|].
    unfold frames in *. simpl flat_map. simpl map.
    cbn [simulate_chiller].
    change (flat_map (fun c0 => map Rx (c0 ++ [CR])) (Py.bytes c :: map Py.bytes cmds))
      with (map Rx (Py.bytes c ++ [CR])
            ++ flat_map (fun c0 => map Rx (c0 ++ [CR])) (map Py.bytes cmds)).
    rewrite (read_until_frame c _ Hcr), (handle_frame c Ha).
    rewrite IH by (simpl in Hn; lia).
    unfold answer_of. now destruct (Py.is_empty (Py.strip c)).
Qed.

(** The same for frames that end with carriage return and line feed. *)
Lemma crlf_frames_answered (cmds : list string) :
  Forall (fun c => Py.isascii c = true /\ Py.char_in "013" c = false) cmds ->
  forall n, length cmds <= n ->
            simulate_chiller n (frames [CR; LF] (map Py.bytes cmds))
            = (flat_map answer_of cmds, None).
Proof.
  intros Hcmds n Hn.
  rewrite (simulate_pending n _ _ (or_introl (frames_lf_inserted _))).
  now apply frames_answered.
Qed.

Example crlf_stream_answered :
  simulate_chiller 2
    (frames [CR; LF] [Py.bytes "status"; Py.bytes "out_mode_05 1"])
  = ([Py.bytes ("03 REMOTE START" +:+ Py.CRLF);
      Py.bytes ("Chiller turned on" +:+ Py.CRLF)], None).
Proof. reflexivity. Qed.

End Answers.

(** ** The session driver *)

Section Worlds.

Import SerialWorker.
Variable env : Env.

Lemma trace_log (a : Action) (w : World) : trace (log a w) = trace w ++ [a].
Proof. reflexivity. Qed.

Lemma trace_tick (w : World) : trace (tick env w) = trace w.
Proof. unfold tick. now destruct (stop_calls env (clock w)). Qed.

Lemma clock_tick (w : World) : clock (tick env w) = S (clock w).
Proof. unfold tick. now destruct (stop_calls env (clock w)). Qed.

Lemma clock_log (a : Action) (w : World) : clock (log a w) = clock w.
Proof. reflexivity. Qed.

Lemma flag_inv_init : flag_inv env init.
Proof. reflexivity. Qed.

Lemma flag_inv_log (a : Action) (w : World) :
  flag_inv env w -> flag_inv env (log a w).
Proof. intros H. exact H. Qed.

Lemma flag_inv_tick (w : World) : flag_inv env w -> flag_inv env (tick env w).
Proof.
  unfold flag_inv. intros H. rewrite clock_tick, seq_S, existsb_app.
  simpl. rewrite orb_false_r. unfold tick.
  destruct (stop_calls env (clock w)); simpl.
  - now rewrite orb_true_r.
  - now rewrite orb_false_r.
Qed.

(** After the steps so far, the flag tells whether [stop] was called. *)
Lemma flag_inv_running (w : World) :
  flag_inv env w ->
  (forall t, t < clock w -> stop_calls env t = false) ->
  is_running w = true.
Proof.
  unfold flag_inv. intros -> Hq. apply negb_true_iff.
  apply not_true_is_false. intros (t & Hin & Ht)%existsb_exists.
  apply in_seq in Hin. rewrite Hq in Ht by lia. discriminate.
Qed.

Lemma flag_inv_stopped (w : World) (t : nat) :
  flag_inv env w -> t < clock w -> stop_calls env t = true ->
  is_running w = false.
Proof.
  unfold flag_inv. intros -> Hlt Ht. apply negb_false_iff.
  apply existsb_exists. exists t. split; [apply in_seq; lia | assumption].
Qed.

Lemma agree_tick (w1 w2 : World) :
  agree w1 w2 -> agree (tick env w1) (tick (quiet env) w2).
Proof.
  intros [Hc Ht]. split.
  - now rewrite !clock_tick, Hc.
  - now rewrite !trace_tick.
Qed.

Lemma agree_log (a : Action) (w1 w2 : World) :
  agree w1 w2 -> agree (log a w1) (log a w2).
Proof. intros [Hc Ht]. split; simpl; congruence. Qed.

End Worlds.

(** Unfolds the trace of a world built from steps and actions. *)
Ltac trace_norm := repeat (rewrite trace_log || rewrite trace_tick).



(** *** Properties of computations, kept by [bind] *)

Section Computations.

Import SerialWorker.
Variable env : Env.
Variable self : Fields.

Local Abbreviation Keeps m := (SerialWorker.Keeps env m).

Lemma Keeps_ret {A} (a : A) : Keeps (ret a).
Proof. intros w H. exact H. Qed.

Lemma Keeps_lift {A} (r : Result A) : Keeps (lift r).
Proof. intros w H. exact H. Qed.

Lemma Keeps_bind {A B} (m : M A) (k : A -> M B) :
  Keeps m -> (forall a, Keeps (k a)) -> Keeps (bind m k).
Proof.
  intros Hm Hk w Hw. unfold bind. specialize (Hm w Hw).
  destruct (m w) as [[a|e] w']; simpl in *; [now apply Hk | assumption].
Qed.

Lemma Keeps_try (body : M unit) (handler : Exn -> M unit) :
  Keeps body -> (forall e, Keeps (handler e)) -> Keeps (try_except body handler).
Proof.
  intros Hm Hk w Hw. unfold try_except. specialize (Hm w Hw).
  destruct (body w) as [[a|e] w']; simpl in *; [assumption | now apply Hk].
Qed.

Lemma Keeps_emit (m : Message) : Keeps (emit env m).
Proof. intros w H. now apply flag_inv_log, flag_inv_tick. Qed.

Lemma Keeps_emit_finished : Keeps (emit_finished env).
Proof. intros w H. now apply flag_inv_log, flag_inv_tick. Qed.

Lemma Keeps_open : Keeps (serial_open env).
Proof.
  intros w H. unfold serial_open.
  destruct (open_error env); simpl;
    [|apply flag_inv_log]; now apply flag_inv_tick.
Qed.

Lemma Keeps_write (data : list byte) : Keeps (ser_write env data).
Proof.
  intros w H. unfold ser_write.
  destruct (write_error env (clock w)); simpl;
    [|apply flag_inv_log]; now apply flag_inv_tick.
Qed.

Lemma Keeps_flush : Keeps (ser_flush env).
Proof.
  intros w H. unfold ser_flush.
  destruct (flush_error env (clock w)); simpl;
    [|apply flag_inv_log]; now apply flag_inv_tick.
Qed.

Lemma Keeps_readline : Keeps (ser_readline env).
Proof.
  intros w H. unfold ser_readline.
  destruct (readline_result env (clock w)); simpl;
    [apply flag_inv_log|]; now apply flag_inv_tick.
Qed.

Lemma Keeps_close : Keeps (ser_close env).
Proof. intros w H. now apply flag_inv_log, flag_inv_tick. Qed.

Lemma Keeps_sleep (d : float) : Keeps (sleep env d).
Proof.
  intros w H. unfold sleep.
  destruct (Py.time_sleep (monotonic env (clock w)) d); simpl;
    [|apply flag_inv_log]; now apply flag_inv_tick.
Qed.

Lemma Keeps_get_is_running : Keeps (get_is_running env).
Proof. intros w H. now apply flag_inv_tick. Qed.

Lemma Keeps_write_chars (text : string) : Keeps (write_chars env self text).
Proof.
  induction text as [|ch rest IH]; simpl.
  - apply Keeps_ret.
  - apply Keeps_bind; [apply Keeps_lift|]. intros data.
    apply Keeps_bind; [apply Keeps_write|]. intros _.
    apply Keeps_bind; [apply Keeps_flush|]. intros _.
    apply Keeps_bind; [apply Keeps_sleep|]. intros _. exact IH.
Qed.

Lemma Keeps_transmit (text : string) : Keeps (transmit env self text).
Proof.
  unfold transmit. destruct (PrimFloat.ltb 0 (tx_delay self)).
  - apply Keeps_write_chars.
  - apply Keeps_bind; [apply Keeps_lift|]. intros data.
    apply Keeps_bind; [apply Keeps_write|]. intros _. apply Keeps_flush.
Qed.

Lemma Keeps_receive : Keeps (receive env self).
Proof.
  unfold receive.
  apply Keeps_bind; [apply Keeps_sleep|]. intros _.
  apply Keeps_bind; [apply Keeps_readline|]. intros raw. apply Keeps_emit.
Qed.

Lemma Keeps_exchange (c : Command) : Keeps (exchange env self c).
Proof.
  unfold exchange.
  apply Keeps_bind; [apply Keeps_emit|]. intros _.
  apply Keeps_bind; [apply Keeps_transmit|]. intros _. apply Keeps_receive.
Qed.

(** The transport does not see the flag: with and without the calls of
    [stop], a computation that does not read the flag does the same. *)





Lemma Sim_emit_finished : Sim (emit_finished env) (emit_finished (quiet env)).
Proof. intros w1 w2 H. split; [reflexivity|]. now apply agree_log, agree_tick. Qed.

Lemma Sim_open : Sim (serial_open env) (serial_open (quiet env)).
Proof.
  intros w1 w2 H. unfold serial_open. simpl.
  destruct (open_error env); simpl; (split; [reflexivity|]);
    [|apply agree_log]; now apply agree_tick.
Qed.









(** The steps of a computation that returns. *)












End Computations.

(** *** Sessions on a transport that does not fail *)

Section Reliable.

Import SerialWorker.
Variable env : Env.
Variable self : Fields.

Lemma bind_ok {A B} (m : M A) (k : A -> M B) (w w' : World) (a : A) :
  m w = (Ok a, w') -> bind m k w = k a w'.
Proof. intros H. unfold bind. now rewrite H. Qed.


Lemma emitted_app (tr1 tr2 : list Action) :
  emitted (tr1 ++ tr2) = emitted tr1 ++ emitted tr2.
Proof. apply List.filter_app. Qed.

Lemma written_app (tr1 tr2 : list Action) :
  written (tr1 ++ tr2) = written tr1 ++ written tr2.
Proof.
  induction tr1 as [|a tr1 IH]; [reflexivity|].
  destruct a; simpl; rewrite IH; try reflexivity.
  now rewrite app_assoc.
Qed.

Lemma full_command_isascii (c : Command) :
  ascii_command c = true -> Py.isascii (full_command self c) = true.
Proof.
  destruct c as [cmd param]. unfold ascii_command. simpl.
  intros [Hc Hp]%andb_true_iff.
  assert (Hterm : Py.isascii (if append_newline self then Py.CRLF else Py.CR)
                  = true) by now destruct (append_newline self).
  unfold Py.isascii in *.
  destruct param as [p|]; [destruct (negb (Py.is_empty p))|];
    destruct (append_newline self); rewrite ?all_chars_app, ?Hc, ?Hp; reflexivity.
Qed.

Hypothesis writes_ok : forall t, write_error env t = None.
Hypothesis flushes_ok : forall t, flush_error env t = None.

Lemma ser_write_ok (data : list byte) (w : World) :
  ser_write env data w = (Ok tt, log (Write data) (tick env w)).
Proof. unfold ser_write. now rewrite writes_ok. Qed.

Lemma ser_flush_ok (w : World) :
  ser_flush env w = (Ok tt, log Flush (tick env w)).
Proof. unfold ser_flush. now rewrite flushes_ok. Qed.

Lemma sleep_ok (d : float) (w : World) :
  sleeps env d ->
  sleep env d w = (Ok tt, log (Sleep d) (tick env w)).
Proof. intros Hd. unfold sleep. now rewrite Hd. Qed.

(** Character by character, ASCII text reaches the wire whole. *)
Lemma write_chars_sent (text : string) :
  sleeps env (tx_delay self) ->
  Py.isascii text = true ->
  forall w, exists w',
    write_chars env self text w = (Ok tt, w')
    /\ emitted (trace w') = emitted (trace w)
    /\ written (trace w') = written (trace w) ++ Py.bytes text.
Proof.
  intros Hd. induction text as [|ch rest IH]; intros Ha w.
  - exists w. repeat split. now rewrite app_nil_r.
  - unfold Py.isascii in Ha. simpl in Ha.
    apply andb_true_iff in Ha as [Hch Hrest].
    set (w1 := log (Sleep (tx_delay self))
                 (tick env (log Flush
                   (tick env (log (Write [byte_of_ascii ch]) (tick env w)))))).
    destruct (IH Hrest w1) as (w' & Hrun & Hem & Hwr).
    exists w'. split; [|split].
    + simpl write_chars. rewrite Hch.
      unfold lift at 1. unfold bind at 1.
      rewrite (bind_ok _ _ _ _ _ (ser_write_ok _ _)).
      rewrite (bind_ok _ _ _ _ _ (ser_flush_ok _)).
      rewrite (bind_ok _ _ _ _ _ (sleep_ok _ _ Hd)). exact Hrun.
    + rewrite Hem. unfold w1.
      trace_norm. rewrite !emitted_app.
      change (emitted [Write [byte_of_ascii ch]]) with (@nil Action).
      change (emitted [Flush]) with (@nil Action).
      change (emitted [Sleep (tx_delay self)]) with (@nil Action).
      now rewrite !app_nil_r.
    + rewrite Hwr. unfold w1.
      trace_norm. rewrite !written_app.
      change (written [Write [byte_of_ascii ch]]) with [byte_of_ascii ch].
      change (written [Flush]) with (@nil byte).
      change (written [Sleep (tx_delay self)]) with (@nil byte).
      rewrite !app_nil_r, <- app_assoc. reflexivity.
Qed.

(** In either mode, the transmission of ASCII text puts its bytes on the
    wire, and emits nothing. *)
Lemma transmit_sent (text : string) :
  (PrimFloat.ltb 0 (tx_delay self) = true ->
   sleeps env (tx_delay self)) ->
  Py.isascii text = true ->
  forall w, exists w',
    transmit env self text w = (Ok tt, w')
    /\ emitted (trace w') = emitted (trace w)
    /\ written (trace w') = written (trace w) ++ Py.bytes text.
Proof.
  intros Hd Ha w. unfold transmit.
  destruct (PrimFloat.ltb 0 (tx_delay self)) eqn:E.
  - apply write_chars_sent; [now apply Hd | assumption].
  - eexists. split; [|split].
    + rewrite (encode_isascii _ Ha). unfold lift at 1. unfold bind at 1.
      rewrite (bind_ok _ _ _ _ _ (ser_write_ok _ _)). apply ser_flush_ok.
    + trace_norm. rewrite !emitted_app.
      change (emitted [Flush]) with (@nil Action).
      change (emitted [Write (Py.bytes text)]) with (@nil Action).
      now rewrite !app_nil_r.
    + trace_norm. rewrite !written_app.
      change (written [Flush]) with (@nil byte).
      change (written [Write (Py.bytes text)]) with (Py.bytes text ++ []).
      now rewrite !app_nil_r.
Qed.

End Reliable.

(** ** The two modes of transmission *)

Section Transmission.

Import SerialWorker.

(** C9, as amended. For a frame of ASCII text and a positive per-byte delay
    that [time.sleep] accepts (a delay that is not too long for its clock),
    on a transport whose writes and flushes succeed, the transmission byte
    by byte and the transmission in one write both complete and put the
    same bytes on the wire in the same order: the bytes of the frame. *)
Theorem transmit_modes_agree
    (env : Env) (self : Fields) (text : string) (d : float) (w : World) :
  PrimFloat.ltb 0 d = true ->
  sleeps env d ->
  Py.isascii text = true ->
  (forall t, write_error env t = None) ->
  (forall t, flush_error env t = None) ->
  exists w_slow w_fast : World,
    transmit env (with_tx_delay d self) text w = (Ok tt, w_slow)
    /\ transmit env (with_tx_delay 0 self) text w = (Ok tt, w_fast)
    /\ written (trace w_slow) = written (trace w_fast)
    /\ written (trace w_fast) = written (trace w) ++ Py.bytes text.
Proof.
  intros Hd Hs Ha Hw Hf.
  destruct (transmit_sent env (with_tx_delay d self) Hw Hf text
              (fun _ => Hs) Ha w)
    as (w_slow & Hslow & _ & Hws).
  assert (Hz : PrimFloat.ltb 0 (tx_delay (with_tx_delay 0 self)) = true ->
               sleeps env (tx_delay (with_tx_delay 0 self)))
    by (intros H; discriminate H).
  destruct (transmit_sent env (with_tx_delay 0 self) Hw Hf text Hz Ha w)
    as (w_fast & Hfast & _ & Hwf).
  exists w_slow, w_fast. repeat split; congruence.
Qed.

Lemma transmit_modes_agree_witness :
  exists w_slow w_fast : World,
    transmit silent_device
      (with_tx_delay 1 (worker [] false 0)) ("VERSION" +:+ Py.CR) init
    = (Ok tt, w_slow)
    /\ transmit silent_device
         (with_tx_delay 0 (worker [] false 0)) ("VERSION" +:+ Py.CR) init
       = (Ok tt, w_fast)
    /\ written (trace w_slow) = written (trace w_fast)
    /\ written (trace w_fast)
       = written (trace init) ++ Py.bytes ("VERSION" +:+ Py.CR).
Proof.
  apply (transmit_modes_agree silent_device
           (worker [] false 0) ("VERSION" +:+ Py.CR) 1 init);
    try reflexivity.
  intros t. reflexivity.
Defined.

(** C9, as stated, fails for a frame that is not ASCII. On a transport that
    never fails, the frame "a", U+00E9, carriage return sent byte by byte
    puts the byte of "a" on the wire before the encoding of the second
    character raises, while the single write puts nothing on the wire: the
    encoding of the whole frame raises first. *)
Lemma transmit_modes_differ_beyond_ascii :
  written (trace (snd (transmit silent_device (worker [] false 1)
                         ("a" +:+ e_acute +:+ Py.CR) init)))
  = Py.bytes "a"
  /\ written (trace (snd (transmit silent_device (worker [] false 0)
                            ("a" +:+ e_acute +:+ Py.CR) init)))
     = []
  /\ fst (transmit silent_device (worker [] false 1)
            ("a" +:+ e_acute +:+ Py.CR) init)
     = Raise UnicodeEncodeError
  /\ fst (transmit silent_device (worker [] false 0)
            ("a" +:+ e_acute +:+ Py.CR) init)
     = Raise UnicodeEncodeError.
Proof. repeat split. Qed.

End Transmission.

(** ** One exchange *)

Section Exchange.

Import SerialWorker.
Variable env : Env.
Variable self : Fields.

(** The wait, the read and the report, when the read returns [raw]. *)
Lemma receive_answers (w : World) (raw : list byte) :
  sleeps env (command_delay self) ->
  readline_result env (S (clock w)) = Ok raw ->
  receive env self w
  = (Ok tt,
     log (Update (Received (response_text raw)))
       (tick env (log (Readline raw)
         (tick env (log (Sleep (command_delay self)) (tick env w)))))).
Proof.
  intros Hd H. unfold receive.
  rewrite (bind_ok _ _ _ _ _ (sleep_ok env _ _ Hd)).
  unfold bind, ser_readline. rewrite clock_log, clock_tick, H. reflexivity.
Qed.

Lemma for_commands_started (c : Command) (rest : list Command) (w w1 : World) :
  get_is_running env w = (Ok true, w1) ->
  for_commands env self (c :: rest) w
  = (exchange env self c ;; for_commands env self rest) w1.
Proof. intros H. simpl. unfold bind at 1. now rewrite H. Qed.

Lemma for_commands_break (c : Command) (rest : list Command) (w w1 : World) :
  get_is_running env w = (Ok false, w1) ->
  for_commands env self (c :: rest) w = (Ok tt, w1).
Proof. intros H. simpl. unfold bind at 1. now rewrite H. Qed.

(** C6. When the read of a command returns no bytes, the Received signal of
    that command carries "No response", the exchange ends without an
    exception, and the loop goes on with the commands that follow. *)
Theorem no_response_continues
    (c : Command) (rest : list Command) (w0 w1 w2 w3 : World) :
  get_is_running env w0 = (Ok true, w1) ->
  (emit env (Sending (Py.strip (full_command self c))) ;;
   transmit env self (full_command self c) ;;
   sleep env (command_delay self)) w1 = (Ok tt, w2) ->
  ser_readline env w2 = (Ok [], w3) ->
  exchange env self c w1
  = (Ok tt, log (Update (Received "No response")) (tick env w3))
  /\ for_commands env self (c :: rest) w0
     = for_commands env self rest
         (log (Update (Received "No response")) (tick env w3)).
Proof.
  intros Hrun Hsent Hread.
  assert (Hex : exchange env self c w1
                = (Ok tt, log (Update (Received "No response")) (tick env w3))).
  { unfold exchange, receive. unfold bind in *.
    destruct (emit env (Sending (Py.strip (full_command self c))) w1)
      as [[[]|e] wa]; [|discriminate].
    destruct (transmit env self (full_command self c) wa)
      as [[[]|e] wb]; [|discriminate].
    rewrite Hsent, Hread. reflexivity. }
  split; [exact Hex|].
  rewrite (for_commands_started _ _ _ _ Hrun).
  now rewrite (bind_ok _ _ _ _ _ Hex).
Qed.

End Exchange.

Section ExchangeWitness.

Import SerialWorker.

Lemma no_response_continues_witness :
  exists w3 : World,
    for_commands silent_device (worker [] false 0)
      [("VERSION", None); ("status", None)] (log Open (tick silent_device init))
    = for_commands silent_device (worker [] false 0) [("status", None)]
        (log (Update (Received "No response")) (tick silent_device w3)).
Proof.
  eexists.
  refine (proj2 (no_response_continues silent_device (worker [] false 0)
                   ("VERSION", None) [("status", None)]
                   (log Open (tick silent_device init)) _ _ _ _ _ _));
    reflexivity.
Defined.

End ExchangeWitness.

(** ** Whole sessions *)

Section Sessions.

Import SerialWorker.
Variable env : Env.
Variable self : Fields.

Hypothesis transport : transport_ok env.
Hypothesis delay_ok : sleeps env (command_delay self).
Hypothesis tx_delay_ok :
  PrimFloat.ltb 0 (tx_delay self) = true ->
  sleeps env (tx_delay self).

(** On a transport that does not fail, the exchange of an ASCII command
    emits its Sending signal and one Received signal. *)
Lemma exchange_ok (c : Command) :
  ascii_command c = true ->
  forall w, exists (r : string) (w' : World),
    exchange env self c w = (Ok tt, w')
    /\ emitted (trace w')
       = emitted (trace w)
         ++ [Update (Sending (Py.strip (full_command self c)));
             Update (Received r)].
Proof.
  intros Hc w. destruct transport as (_ & Hw & Hf & Hr).
  set (wa := log (Update (Sending (Py.strip (full_command self c))))
               (tick env w)).
  destruct (transmit_sent env self Hw Hf _ tx_delay_ok
              (full_command_isascii self c Hc) wa)
    as (wb & Hsent & Hem & _).
  destruct (Hr (S (clock wb))) as [raw Hraw].
  exists (response_text raw). eexists. split.
  - unfold exchange. unfold emit at 1. unfold bind at 1. fold wa.
    rewrite (bind_ok _ _ _ _ _ Hsent).
    exact (receive_answers env self wb raw delay_ok Hraw).
  - trace_norm. rewrite !emitted_app, Hem. unfold wa. trace_norm.
    rewrite emitted_app.
    change (emitted [Sleep (command_delay self)]) with (@nil Action).
    change (emitted [Readline raw]) with (@nil Action).
    rewrite !app_nil_r, <- app_assoc. reflexivity.
Qed.

Hypothesis no_stop : never_stopped env.

Lemma never_stopped_running (w : World) :
  flag_inv env w -> is_running w = true.
Proof. intros H. apply (flag_inv_running env w H). intros t _. apply no_stop. Qed.

(** Without a call of [stop], the loop runs every command. *)
Lemma for_commands_ok (cs : list Command) :
  Forall (fun c => ascii_command c = true) cs ->
  forall w, flag_inv env w ->
  exists (rs : list string) (w' : World),
    for_commands env self cs w = (Ok tt, w')
    /\ length rs = length cs
    /\ emitted (trace w') = emitted (trace w) ++ pairs self cs rs.
Proof.
  induction 1 as [|c cs Hc Hcs IH]; intros w Hinv.
  - exists [], w. repeat split. now rewrite app_nil_r.
  - pose proof (flag_inv_tick env w Hinv) as Hinv1.
    destruct (exchange_ok c Hc (tick env w)) as (r & w1 & Hex & Hem1).
    assert (Hinv2 : flag_inv env w1).
    { pose proof (Keeps_exchange env self c (tick env w) Hinv1) as K.
      now rewrite Hex in K. }
    destruct (IH w1 Hinv2) as (rs & w2 & Hloop & Hlen & Hem2).
    exists (r :: rs), w2. split; [|split].
    + rewrite (for_commands_started env self c cs w (tick env w)).
      * now rewrite (bind_ok _ _ _ _ _ Hex).
      * unfold get_is_running. now rewrite (never_stopped_running _ Hinv1).
    + simpl. now rewrite Hlen.
    + rewrite Hem2, Hem1, trace_tick, <- app_assoc. reflexivity.
Qed.

(** A session without failure and without cancellation: the signals are the
    pairs of the commands and the finished signal, and the port is closed
    just before the finished signal. *)
Lemma clean_session :
  Forall (fun c => ascii_command c = true) (commands self) ->
  exists (rs : list string) (body : list Action),
    length rs = length (commands self)
    /\ emitted (run_trace env self) = pairs self (commands self) rs ++ [Finished]
    /\ run_trace env self = body ++ [Close; Finished].
Proof.
  intros Hcs. destruct transport as (Hopen & _).
  set (w0 := log Open (tick env init)).
  assert (Hinv0 : flag_inv env w0)
    by apply flag_inv_log, flag_inv_tick, flag_inv_init.
  destruct (for_commands_ok _ Hcs w0 Hinv0) as (rs & w1 & Hloop & Hlen & Hem).
  exists rs, (trace w1). split; [exact Hlen|].
  assert (Hrun : run env self init
                 = (Ok tt, log Finished (tick env (log Close (tick env w1))))).
  { unfold run, try_except. unfold bind at 1.
    unfold serial_open at 1. rewrite Hopen. unfold bind at 1. fold w0.
    now rewrite (bind_ok _ _ _ _ _ Hloop). }
  unfold run_trace. rewrite Hrun. simpl snd. trace_norm. split.
  - rewrite !emitted_app, Hem. unfold w0. trace_norm.
    now rewrite emitted_app, <- app_assoc.
  - now rewrite <- app_assoc.
Qed.

End Sessions.

(** ** Cancellation *)

Section Cancellation.

Import SerialWorker.
Variable env : Env.
Variable self : Fields.



(** The trace of a run, from the outcome of its loop. *)
Lemma run_trace_opened :
  open_error env = None ->
  run_trace env self
  = match for_commands env self (commands self) (log Open (tick env init)) with
    | (Ok _, w) => trace w ++ [Close; Finished]
    | (Raise e, w) => trace w ++ [Update (Error e); Finished]
    end.
Proof.
  intros Hopen. unfold run_trace, run, try_except. unfold bind at 1.
  unfold bind at 1. unfold serial_open at 1. rewrite Hopen.
  unfold bind at 1.
  destruct (for_commands env self (commands self) (log Open (tick env init)))
    as [[[]|e] w]; cbn [fst snd ser_close emit emit_finished];
    trace_norm; now rewrite <- app_assoc.
Qed.

Lemma run_trace_not_opened (e : Exn) :
  open_error env = Some e ->
  run_trace env self = [Update (Error e); Finished].
Proof.
  intros Hopen. unfold run_trace, run, try_except. unfold bind at 1.
  unfold bind at 1. unfold serial_open at 1. rewrite Hopen.
  cbn [fst snd emit emit_finished]. trace_norm. reflexivity.
Qed.

End Cancellation.

(** ** The claims about whole sessions *)

Section SessionClaims.

Import SerialWorker.




(** C1, at the failing input. The port opens and the first write raises:
    the worker reports the error and emits the finished signal, and the
    port is never closed. *)
Theorem port_left_open_on_write_failure :
  run_trace failing_writes (worker [("VERSION", None)] false 0)
  = [Open; Update (Sending "VERSION");
     Update (Error (SerialException "write failed")); Finished]
  /\ ~ In Close (run_trace failing_writes (worker [("VERSION", None)] false 0)).
Proof.
  split; [reflexivity|].
  intros [H|[H|[H|[H|[]]]]]; discriminate.
Qed.

(** The same session on a transport that does not fail closes the port
    before the finished signal. *)
Example port_closed_on_completion :
  run_trace silent_device (worker [("VERSION", None)] false 0)
  = [Open; Update (Sending "VERSION"); Write (Py.bytes ("VERSION" +:+ Py.CR));
     Flush; Sleep 0x1.eb851eb851eb8p-5; Readline []; Update (Received "No response");
     Close; Finished].
Proof. reflexivity. Qed.

(** C2, as amended. When the port opens, no write, flush or read fails,
    [stop] is never called, the name and the parameter of every command are
    ASCII text, and [time.sleep] accepts the delays it is called with (the
    delay before the read, and the per-character delay when it is
    positive): neither NaN, nor negative, nor too long for its clock; then
    the worker emits one Sending and one Received signal per command, in the
    order of the list, then the finished signal, and no Error signal. *)
Theorem session_emits_pairs (env : Env) (self : Fields) :
  transport_ok env ->
  never_stopped env ->
  Forall (fun c => ascii_command c = true) (commands self) ->
  sleeps env (command_delay self) ->
  (PrimFloat.ltb 0 (tx_delay self) = true ->
   sleeps env (tx_delay self)) ->
  session_in_pairs env self.
Proof.
  intros Ht Hs Hc Hd Htx.
  destruct (clean_session env self Ht Hd Htx Hs Hc)
    as (rs & body & Hlen & Hem & _).
  exists rs. now split.
Qed.

Lemma session_emits_pairs_witness :
  session_in_pairs silent_device
    (worker [("VERSION", None); ("out_sp_00", Some "5.00")] true 0.5).
Proof.
  apply (session_emits_pairs silent_device
           (worker [("VERSION", None); ("out_sp_00", Some "5.00")] true 0.5)).
  - repeat split; intros t; exists []; reflexivity.
  - intros t; reflexivity.
  - repeat constructor.
  - intros t. reflexivity.
  - intros _ t. reflexivity.
Defined.

(** C2, as stated, fails for a command that is not ASCII, and for a delay
    that [time.sleep] refuses. The port opens, no write or read fails and
    [stop] is never called, yet the session of the one command U+00E9 emits
    a Sending signal, an Error signal and the finished signal: the encoding
    of the frame raises. So does the session of the one command "VERSION"
    with a delay of minus one second before the read: [time.sleep]
    raises. *)
Lemma session_not_in_pairs :
  transport_ok silent_device
  /\ never_stopped silent_device
  /\ emitted (run_trace silent_device (worker [(e_acute, None)] false 0))
     = [Update (Sending e_acute); Update (Error UnicodeEncodeError); Finished]
  /\ ~ session_in_pairs silent_device (worker [(e_acute, None)] false 0)
  /\ emitted (run_trace silent_device
                (with_command_delay (-1)
                   (worker [("VERSION", None)] false 0)))
     = [Update (Sending "VERSION"); Update (Error ValueError); Finished]
  /\ ~ session_in_pairs silent_device
        (with_command_delay (-1) (worker [("VERSION", None)] false 0)).
Proof.
  split; [|split; [|split; [|split; [|split]]]].
  - repeat split; intros t; exists []; reflexivity.
  - intros t; reflexivity.
  - reflexivity.
  - intros (rs & Hlen & Hem).
    destruct rs as [|r [|r' rs]]; try discriminate Hlen.
    discriminate Hem.
  - reflexivity.
  - intros (rs & Hlen & Hem).
    destruct rs as [|r [|r' rs]]; try discriminate Hlen.
    discriminate Hem.
Qed.



(** A delay that [time.sleep] refuses ends the session with an Error
    signal: at ten thousand million seconds before the read, and at a
    per-character delay of infinity, [time.sleep] raises OverflowError
    after the first write, and the port is not closed. *)
Example session_with_refused_delay :
  run_trace silent_device
    (with_command_delay 1e10 (worker [("VERSION", None)] false 0))
  = [Open; Update (Sending "VERSION"); Write (Py.bytes ("VERSION" +:+ Py.CR));
     Flush; Update (Error OverflowError); Finished]
  /\ run_trace silent_device (worker [("VERSION", None)] false infinity)
     = [Open; Update (Sending "VERSION"); Write (Py.bytes "V"); Flush;
        Update (Error OverflowError); Finished].
Proof. split; reflexivity. Qed.

End SessionClaims.

(** ** The shape of a run *)

Section Shape.

Import SerialWorker.
Variable env : Env.
Variable self : Fields.
Variable P : Action -> bool.

Lemma Logs_ret {A} (a : A) : Logs P (ret a).
Proof. intros w. exists []. split; [now rewrite app_nil_r | reflexivity]. Qed.

Lemma Logs_lift {A} (r : Result A) : Logs P (lift r).
Proof. intros w. exists []. split; [now rewrite app_nil_r | reflexivity]. Qed.

Lemma Logs_bind {A B} (m : M A) (k : A -> M B) :
  Logs P m -> (forall a, Logs P (k a)) -> Logs P (bind m k).
Proof.
  intros Hm Hk w. unfold bind. destruct (Hm w) as (acts1 & Ht1 & Hp1).
  destruct (m w) as [[a|e] w1]; simpl in Ht1.
  - destruct (Hk a w1) as (acts2 & Ht2 & Hp2). exists (acts1 ++ acts2).
    split; [now rewrite Ht2, Ht1, app_assoc|].
    now rewrite forallb_app, Hp1, Hp2.
  - exists acts1. now split.
Qed.

(** A step that logs one action, or none. *)
Lemma Logs_step (a : Action) (w : World) :
  P a = true ->
  exists acts : list Action,
    trace (log a (tick env w)) = trace w ++ acts /\ forallb P acts = true.
Proof.
  intros Ha. exists [a]. split; [now rewrite trace_log, trace_tick|].
  simpl. now rewrite Ha.
Qed.

Lemma Logs_idle (w : World) :
  exists acts : list Action,
    trace (tick env w) = trace w ++ acts /\ forallb P acts = true.
Proof. exists []. split; [now rewrite trace_tick, app_nil_r | reflexivity]. Qed.

Lemma Logs_get_is_running : Logs P (get_is_running env).
Proof. intros w. apply Logs_idle. Qed.

Hypothesis P_exchange : forall a, exchange_action a = true -> P a = true.

Lemma Logs_emit_sending (text : string) : Logs P (emit env (Sending text)).
Proof. intros w. apply Logs_step. now apply P_exchange. Qed.

Lemma Logs_emit_received (text : string) : Logs P (emit env (Received text)).
Proof. intros w. apply Logs_step. now apply P_exchange. Qed.

Lemma Logs_write (data : list byte) : Logs P (ser_write env data).
Proof.
  intros w. unfold ser_write. destruct (write_error env (clock w)); simpl.
  - apply Logs_idle.
  - apply Logs_step. now apply P_exchange.
Qed.

Lemma Logs_flush : Logs P (ser_flush env).
Proof.
  intros w. unfold ser_flush. destruct (flush_error env (clock w)); simpl.
  - apply Logs_idle.
  - apply Logs_step. now apply P_exchange.
Qed.

Lemma Logs_readline : Logs P (ser_readline env).
Proof.
  intros w. unfold ser_readline. destruct (readline_result env (clock w)); simpl.
  - apply Logs_step. now apply P_exchange.
  - apply Logs_idle.
Qed.

Lemma Logs_sleep (d : float) : Logs P (sleep env d).
Proof.
  intros w. unfold sleep.
  destruct (Py.time_sleep (monotonic env (clock w)) d); simpl.
  - apply Logs_idle.
  - apply Logs_step. now apply P_exchange.
Qed.

Lemma Logs_write_chars (text : string) : Logs P (write_chars env self text).
Proof.
  induction text as [|ch rest IH]; simpl.
  - apply Logs_ret.
  - apply Logs_bind; [apply Logs_lift|]. intros data.
    apply Logs_bind; [apply Logs_write|]. intros _.
    apply Logs_bind; [apply Logs_flush|]. intros _.
    apply Logs_bind; [apply Logs_sleep|]. intros _. exact IH.
Qed.

Lemma Logs_transmit (text : string) : Logs P (transmit env self text).
Proof.
  unfold transmit. destruct (PrimFloat.ltb 0 (tx_delay self)).
  - apply Logs_write_chars.
  - apply Logs_bind; [apply Logs_lift|]. intros data.
    apply Logs_bind; [apply Logs_write|]. intros _. apply Logs_flush.
Qed.

Lemma Logs_receive : Logs P (receive env self).
Proof.
  unfold receive.
  apply Logs_bind; [apply Logs_sleep|]. intros _.
  apply Logs_bind; [apply Logs_readline|]. intros raw.
  apply Logs_emit_received.
Qed.

Lemma Logs_exchange (c : Command) : Logs P (exchange env self c).
Proof.
  unfold exchange.
  apply Logs_bind; [apply Logs_emit_sending|]. intros _.
  apply Logs_bind; [apply Logs_transmit|]. intros _. apply Logs_receive.
Qed.

Lemma Logs_for_commands (cs : list Command) : Logs P (for_commands env self cs).
Proof.
  induction cs as [|c rest IH]; simpl.
  - apply Logs_ret.
  - apply Logs_bind; [apply Logs_get_is_running|]. intros running.
    destruct (negb running); [apply Logs_ret|].
    apply Logs_bind; [apply Logs_exchange|]. intros _. exact IH.
Qed.

End Shape.

Section RunShape.

Import SerialWorker.

(** X1. Every run has one of three shapes. When the port does not open, the
    worker emits the Error signal and the finished signal, and does nothing
    else. When it opens, the worker performs exchange actions only (writes,
    flushes, pauses, reads, Sending and Received signals), and then either
    closes the port or emits one Error signal, and last emits the finished
    signal. *)
Theorem run_shape (env : Env) (self : Fields) :
  match open_error env with
  | Some e => run_trace env self = [Update (Error e); Finished]
  | None =>
      exists body : list Action,
        forallb exchange_action body = true
        /\ (run_trace env self = Open :: body ++ [Close; Finished]
            \/ exists e, run_trace env self
                         = Open :: body ++ [Update (Error e); Finished])
  end.
Proof.
  destruct (open_error env) as [e|] eqn:Hopen.
  - now apply run_trace_not_opened.
  - rewrite (run_trace_opened env self Hopen).
    destruct (Logs_for_commands env self exchange_action (fun a H => H)
                (commands self) (log Open (tick env init)))
      as (body & Htr & Hbody).
    exists body. split; [exact Hbody|].
    rewrite trace_log, trace_tick in Htr.
    destruct (for_commands env self (commands self) (log Open (tick env init)))
      as [[[]|e] w]; cbn [snd] in Htr; rewrite Htr; [left | right; exists e];
      reflexivity.
Qed.

(** X2. When the port opens and [stop] is called before the first test of
    the flag, no command is sent: the worker opens the port, closes it and
    emits the finished signal. *)
Theorem stopped_before_first_command (env : Env) (self : Fields) :
  open_error env = None ->
  stop_calls env 0 = true \/ stop_calls env 1 = true ->
  run_trace env self = [Open; Close; Finished].
Proof.
  intros Hopen Hstop. rewrite (run_trace_opened env self Hopen).
  destruct (commands self) as [|c rest].
  { simpl for_commands. unfold ret. now rewrite trace_log, trace_tick. }
  assert (Hinv : flag_inv env (tick env (log Open (tick env init))))
    by apply flag_inv_tick, flag_inv_log, flag_inv_tick, flag_inv_init.
  assert (Hrun : get_is_running env (log Open (tick env init))
                 = (Ok false, tick env (log Open (tick env init)))).
  { unfold get_is_running. f_equal. f_equal.
    destruct Hstop as [H|H];
      [apply (flag_inv_stopped env _ 0 Hinv) | apply (flag_inv_stopped env _ 1 Hinv)];
      try assumption; rewrite clock_tick, clock_log, clock_tick; simpl; lia. }
  rewrite (for_commands_break env self _ _ _ _ Hrun).
  now rewrite trace_tick, trace_log, trace_tick.
Qed.

Lemma stopped_before_first_command_witness :
  run_trace (stop_at 1) (worker [("VERSION", None); ("status", None)] false 0)
  = [Open; Close; Finished].
Proof.
  apply (stopped_before_first_command (stop_at 1)
           (worker [("VERSION", None); ("status", None)] false 0));
    [reflexivity | right; reflexivity].
Defined.

End RunShape.

(** ** The bytes of a session on the wire *)

Section Wire.

Import SerialWorker.
Variable env : Env.
Variable self : Fields.

Hypothesis transport : transport_ok env.
Hypothesis delay_ok : sleeps env (command_delay self).
Hypothesis tx_delay_ok :
  PrimFloat.ltb 0 (tx_delay self) = true ->
  sleeps env (tx_delay self).
Hypothesis no_stop : never_stopped env.

Lemma exchange_wire (c : Command) :
  ascii_command c = true ->
  forall w, exists w' : World,
    exchange env self c w = (Ok tt, w')
    /\ written (trace w') = written (trace w) ++ Py.bytes (full_command self c).
Proof.
  intros Hc w. destruct transport as (_ & Hw & Hf & Hr).
  set (wa := log (Update (Sending (Py.strip (full_command self c))))
               (tick env w)).
  destruct (transmit_sent env self Hw Hf _ tx_delay_ok
              (full_command_isascii self c Hc) wa)
    as (wb & Hsent & _ & Hwr).
  destruct (Hr (S (clock wb))) as [raw Hraw].
  eexists. split.
  - unfold exchange. unfold emit at 1. unfold bind at 1. fold wa.
    rewrite (bind_ok _ _ _ _ _ Hsent).
    exact (receive_answers env self wb raw delay_ok Hraw).
  - trace_norm. rewrite !written_app, Hwr. unfold wa. trace_norm.
    rewrite written_app.
    change (written [Update (Sending (Py.strip (full_command self c)))])
      with (@nil byte).
    change (written [Sleep (command_delay self)]) with (@nil byte).
    change (written [Readline raw]) with (@nil byte).
    change (written [Update (Received (response_text raw))]) with (@nil byte).
    now rewrite !app_nil_r.
Qed.

Lemma for_commands_wire (cs : list Command) :
  Forall (fun c => ascii_command c = true) cs ->
  forall w, flag_inv env w ->
  exists w' : World,
    for_commands env self cs w = (Ok tt, w')
    /\ written (trace w') = written (trace w) ++ wire_of self cs.
Proof.
  induction 1 as [|c cs Hc Hcs IH]; intros w Hinv.
  - exists w. split; [reflexivity|]. unfold wire_of. simpl. now rewrite app_nil_r.
  - pose proof (flag_inv_tick env w Hinv) as Hinv1.
    destruct (exchange_wire c Hc (tick env w)) as (w1 & Hex & Hwr1).
    assert (Hinv2 : flag_inv env w1).
    { pose proof (Keeps_exchange env self c (tick env w) Hinv1) as K.
      now rewrite Hex in K. }
    destruct (IH w1 Hinv2) as (w2 & Hloop & Hwr2).
    exists w2. split.
    + rewrite (for_commands_started env self c cs w (tick env w)).
      * now rewrite (bind_ok _ _ _ _ _ Hex).
      * unfold get_is_running.
        now rewrite (never_stopped_running env no_stop _ Hinv1).
    + rewrite Hwr2, Hwr1, trace_tick, <- app_assoc. reflexivity.
Qed.

End Wire.

Section WireClaims.

Import SerialWorker.

(** X3. In a session without transport failure and without cancellation,
    with ASCII commands and delays that [time.sleep] accepts (the delay
    before the read, and the per-character delay when it is positive), the
    bytes written to the port are the frames of the commands, whole and in
    the order of the list, in either mode of transmission. *)
Theorem wire_in_order (env : Env) (self : Fields) :
  transport_ok env ->
  never_stopped env ->
  Forall (fun c => ascii_command c = true) (commands self) ->
  sleeps env (command_delay self) ->
  (PrimFloat.ltb 0 (tx_delay self) = true ->
   sleeps env (tx_delay self)) ->
  written (run_trace env self) = wire_of self (commands self).
Proof.
  intros Ht Hs Hc Hd Htx.
  assert (Hopen : open_error env = None) by apply Ht.
  rewrite (run_trace_opened env self Hopen).
  destruct (for_commands_wire env self Ht Hd Htx Hs _ Hc
              (log Open (tick env init)))
    as (w & Hloop & Hwr).
  { apply flag_inv_log, flag_inv_tick, flag_inv_init. }
  rewrite Hloop, written_app, Hwr, trace_log, trace_tick.
  change (written [Close; Finished]) with (@nil byte).
  now rewrite app_nil_r.
Qed.

Lemma wire_in_order_witness :
  written (run_trace silent_device
             (worker [("VERSION", None); ("out_sp_00", Some "5.00")] true 1))
  = wire_of (worker [("VERSION", None); ("out_sp_00", Some "5.00")] true 1)
      [("VERSION", None); ("out_sp_00", Some "5.00")].
Proof.
  apply (wire_in_order silent_device
           (worker [("VERSION", None); ("out_sp_00", Some "5.00")] true 1)).
  - repeat split; intros t; exists []; reflexivity.
  - intros t; reflexivity.
  - repeat constructor.
  - intros t. reflexivity.
  - intros _ t. reflexivity.
Defined.

End WireClaims.

(** ** What the signals show *)

Section Signals.

Import SerialWorker.

Lemma length_rstrip_by (p : ascii -> bool) (s : string) :
  String.length (Py.rstrip_by p s) <= String.length s.
Proof.
  induction s as [|c s IH]; [reflexivity|].
  simpl. destruct (Py.rstrip_by p s) as [|d r].
  - destruct (p c); simpl; lia.
  - simpl in *. lia.
Qed.

Lemma lstrip_by_fixed_or_shorter (p : ascii -> bool) (s : string) :
  Py.lstrip_by p s = s \/ String.length (Py.lstrip_by p s) < String.length s.
Proof.
  induction s as [|c s IH]; [now left|].
  simpl. destruct (p c); [|now left].
  right. destruct IH as [-> | IH]; lia.
Qed.

Lemma strip_fixed_lstrip (s : string) :
  Py.strip s = s -> Py.lstrip_by Py.isspace s = s.
Proof.
  unfold Py.strip. intros H.
  destruct (lstrip_by_fixed_or_shorter Py.isspace s) as [E|E]; [exact E|].
  pose proof (length_rstrip_by Py.isspace (Py.lstrip_by Py.isspace s)) as L.
  rewrite H in L. lia.
Qed.

(** Text that starts well still starts well with a suffix. *)
Lemma lstrip_by_app_fixed (p : ascii -> bool) (s t : string) :
  s <> "" -> Py.lstrip_by p s = s -> Py.lstrip_by p (s +:+ t) = s +:+ t.
Proof.
  intros Hne Hs. destruct s as [|c s]; [contradiction|].
  rewrite append_cons. simpl in *. destruct (p c); [|reflexivity].
  destruct (lstrip_by_fixed_or_shorter p s) as [E|E].
  - rewrite E in Hs. apply (f_equal String.length) in Hs. simpl in Hs. lia.
  - rewrite Hs in E. simpl in E. lia.
Qed.

(** X4. For a command whose name is not empty and whose name and parameter
    carry no white space at their ends, the Sending signal shows the name,
    then a space and the parameter when there is one, and no line end, for
    both line ends. *)
Theorem sending_text (self : Fields) (name : string) (param : option string) :
  name <> "" ->
  Py.strip name = name ->
  match param with Some p => Py.strip p = p | None => True end ->
  Py.strip (full_command self (name, param))
  = match param with
    | Some p => if String.eqb p "" then name else name +:+ " " +:+ p
    | None => name
    end.
Proof.
  intros Hne Hname Hparam. rewrite full_command_text.
  rewrite strip_app by now destruct (append_newline self).
  destruct param as [[|c p]|]; try exact Hname.
  set (q := String c p) in *. change (String.eqb q "") with false. cbv iota.
  unfold Py.strip.
  rewrite lstrip_by_app_fixed;
    [|assumption | now apply strip_fixed_lstrip].
  apply rstrip_by_app_fixed; [discriminate|].
  apply (rstrip_by_app_fixed _ " " q); [discriminate|].
  now apply strip_fixed_rstrip.
Qed.

Lemma sending_text_witness :
  Py.strip (full_command (worker [] true 0) ("out_sp_00", Some "5.00"))
  = "out_sp_00 5.00".
Proof.
  apply (sending_text (worker [] true 0) "out_sp_00" (Some "5.00"));
    [discriminate | reflexivity | reflexivity].
Defined.

End Signals.

(** ** The worker in front of the simulator *)

Section EndToEnd.

Import SerialWorker.

Lemma split1_cases (s : string) (sep : ascii) :
  Py.split1 s sep = [s]
  \/ exists hd tl, Py.split1 s sep = [hd; tl] /\ s = hd +:+ String sep tl.
Proof.
  induction s as [|c s IH]; [now left|].
  simpl. destruct (Ascii.eqb c sep) eqn:E.
  - right. exists "", s. apply Ascii.eqb_eq in E. subst. now split.
  - destruct IH as [-> | (hd & tl & -> & Hs)]; [now left|].
    right. exists (String c hd), tl. split; [reflexivity|].
    now rewrite append_cons, <- Hs.
Qed.

(** The end of text that ends well ends well. *)
Lemma rstrip_by_suffix (q : ascii -> bool) (s t : string) :
  t <> "" -> Py.rstrip_by q (s +:+ t) = s +:+ t -> Py.rstrip_by q t = t.
Proof.
  intros Hne. induction s as [|c s IH]; [now rewrite append_empty_l|].
  rewrite append_cons. simpl.
  destruct (Py.rstrip_by q (s +:+ t)) as [|d r] eqn:E.
  - destruct (q c); [discriminate|]. intros [= H].
    destruct s; [|discriminate]. rewrite append_empty_l in H. now subst.
  - intros [= H]. apply IH. now rewrite H.
Qed.

Lemma table_ends_clean (data : string) :
  Py.rstrip (default "OK" (Chiller.RESPONSES !! data)) Py.CRLF
  = default "OK" (Chiller.RESPONSES !! data).
Proof.
  unfold Chiller.RESPONSES.
  repeat (rewrite lookup_insert; destruct (decide _); [reflexivity|]).
  now rewrite lookup_empty.
Qed.

(** The response to a trimmed line has no line end of its own. *)
Lemma respond_ends_clean (data : string) :
  Py.strip data = data ->
  Py.rstrip (Chiller.respond data) Py.CRLF = Chiller.respond data.
Proof.
  intros Hdata. unfold Chiller.respond.
  destruct (Py.startswith data "out_sp_00").
  - destruct (split1_cases data " ") as [-> | (hd & tl & -> & Hs)];
      [reflexivity|]. simpl nth. cbv iota.
    change (1 <? length [hd; tl])%nat with true. cbv iota.
    destruct tl as [|c tl]; [reflexivity|].
    apply rstrip_by_app_fixed; [discriminate|].
    apply (rstrip_by_suffix _ (hd +:+ " ") (String c tl)); [discriminate|].
    rewrite append_assoc. change (" " +:+ String c tl) with (String " " (String c tl)).
    rewrite <- Hs. now apply strip_fixed_crlf.
  - destruct (Py.startswith data "out_mode_05"); [|apply table_ends_clean].
    destruct (1 <? length (Py.split1 data " "))%nat; [|reflexivity].
    now destruct (String.eqb _ _).
Qed.

Lemma lstrip_by_idem (p : ascii -> bool) (s : string) :
  Py.lstrip_by p (Py.lstrip_by p s) = Py.lstrip_by p s.
Proof.
  induction s as [|c s IH]; [reflexivity|].
  simpl. destruct (p c) eqn:E; [exact IH|]. simpl. now rewrite E.
Qed.

Lemma lstrip_rstrip_fixed (p : ascii -> bool) (t : string) :
  Py.lstrip_by p t = t -> Py.lstrip_by p (Py.rstrip_by p t) = Py.rstrip_by p t.
Proof.
  destruct t as [|c t]; [reflexivity|]. intros H.
  assert (Hc : p c = false).
  { simpl in H. destruct (p c); [|reflexivity].
    destruct (lstrip_by_fixed_or_shorter p t) as [E|E].
    - rewrite E in H. apply (f_equal String.length) in H. simpl in H. lia.
    - rewrite H in E. simpl in E. lia. }
  simpl. destruct (Py.rstrip_by p t); simpl; rewrite ?Hc; simpl; rewrite ?Hc;
    reflexivity.
Qed.

(** A trimmed text is left as it is by a second trim. *)
Lemma strip_idem (s : string) : Py.strip (Py.strip s) = Py.strip s.
Proof.
  unfold Py.strip.
  rewrite lstrip_rstrip_fixed by apply lstrip_by_idem.
  apply rstrip_by_idem.
Qed.

Lemma char_in_app (a : ascii) (s t : string) :
  Py.char_in a (s +:+ t) = Py.char_in a s || Py.char_in a t.
Proof.
  induction s as [|c s IH]; [now rewrite append_empty_l|].
  rewrite append_cons. simpl. now rewrite IH, orb_assoc.
Qed.

Lemma table_no_lf (data : string) :
  Py.char_in "010" (default "OK" (Chiller.RESPONSES !! data)) = false.
Proof.
  unfold Chiller.RESPONSES.
  repeat (rewrite lookup_insert; destruct (decide _); [reflexivity|]).
  now rewrite lookup_empty.
Qed.

(** The response to a line without a line feed has no line feed. *)
Lemma respond_no_lf (data : string) :
  Py.char_in "010" data = false ->
  Py.char_in "010" (Chiller.respond data) = false.
Proof.
  intros Hdata. unfold Chiller.respond.
  destruct (Py.startswith data "out_sp_00").
  - destruct (split1_cases data " ") as [-> | (hd & tl & -> & Hs)];
      [reflexivity|]. simpl nth. cbv iota.
    change (1 <? length [hd; tl])%nat with true. cbv iota.
    rewrite Hs, char_in_app in Hdata. apply orb_false_iff in Hdata as [_ Htl].
    simpl in Htl. rewrite char_in_app. exact Htl.
  - destruct (Py.startswith data "out_mode_05"); [|apply table_no_lf].
    destruct (1 <? length (Py.split1 data " "))%nat; [|reflexivity].
    now destruct (String.eqb _ _).
Qed.

Lemma byte_of_ascii_lf (ch : ascii) :
  Ascii.eqb "010" ch = false -> Byte.eqb (byte_of_ascii ch) Chiller.LF = false.
Proof.
  intros H. destruct (Byte.eqb (byte_of_ascii ch) Chiller.LF) eqn:E;
    [|reflexivity].
  apply Byte.byte_dec_bl in E.
  apply (f_equal ascii_of_byte) in E. unfold Chiller.LF in E.
  rewrite !ascii_of_byte_of_ascii in E. subst ch. discriminate H.
Qed.

(** A line whose text has no line feed is read whole. *)
Lemma readline_from_line (r : string) :
  Py.char_in "010" r = false ->
  readline_from (Py.bytes (r +:+ Py.CRLF)) = Py.bytes (r +:+ Py.CRLF).
Proof.
  induction r as [|ch r IH]; intros H; [reflexivity|].
  simpl in H. apply orb_false_iff in H as [Hch Hr].
  rewrite append_cons.
  change (Py.bytes (String ch (r +:+ Py.CRLF)))
    with (byte_of_ascii ch :: Py.bytes (r +:+ Py.CRLF)).
  simpl. now rewrite (byte_of_ascii_lf _ Hch), (IH Hr).
Qed.

(** X5. The worker in front of the simulator, for one command. The frame is
    the ASCII text [c] and a carriage return, where [c] has no carriage
    return, its trimmed text is not empty and has no line feed. In one pass
    the simulator reads the frame and writes one line; [readline] returns
    that line whole; and the text the worker reports for it is exactly the
    response that the simulator chose. *)
Theorem worker_reports_response (c : string) :
  Py.isascii c = true ->
  Py.char_in "013" c = false ->
  Py.char_in "010" (Py.strip c) = false ->
  Py.is_empty (Py.strip c) = false ->
  exists out : list byte,
    Chiller.simulate_chiller 1 (map Chiller.Rx (Py.bytes c ++ [Chiller.CR]))
    = ([out], None)
    /\ readline_from out = out
    /\ response_text (readline_from out) = Chiller.respond (Py.strip c).
Proof.
  intros Ha Hcr Hlf Hne.
  exists (Py.bytes (Chiller.respond (Py.strip c) +:+ Py.CRLF)).
  set (r := Chiller.respond (Py.strip c)).
  assert (Hline : readline_from (Py.bytes (r +:+ Py.CRLF))
                  = Py.bytes (r +:+ Py.CRLF))
    by now apply readline_from_line, respond_no_lf.
  split; [|split; [exact Hline|]].
  - simpl Chiller.simulate_chiller.
    rewrite <- (app_nil_r (map Chiller.Rx (Py.bytes c ++ [Chiller.CR]))).
    rewrite (read_until_frame c [] Hcr), (handle_frame c Ha).
    unfold Chiller.answer_of. now rewrite Hne.
  - rewrite Hline.
    assert (Hr : Py.isascii (r +:+ Py.CRLF) = true).
    { unfold Py.isascii. rewrite all_chars_app.
      fold (Py.isascii r). unfold r.
      now rewrite isascii_respond by now apply isascii_strip. }
    rewrite bytes_app. unfold response_text.
    destruct (Py.bytes r ++ Py.bytes Py.CRLF) as [|b bs] eqn:E.
    { apply (f_equal (@length byte)) in E. rewrite length_app in E.
      simpl in E. lia. }
    rewrite <- E, <- bytes_app, (decode_ignore_bytes _ Hr).
    apply (rstrip_line_end r true).
    apply respond_ends_clean, strip_idem.
Qed.

Lemma worker_reports_response_witness :
  exists out : list byte,
    Chiller.simulate_chiller 1
      (map Chiller.Rx (Py.bytes "out_mode_05 1" ++ [Chiller.CR]))
    = ([out], None)
    /\ readline_from out = out
    /\ response_text (readline_from out)
       = Chiller.respond (Py.strip "out_mode_05 1").
Proof.
  apply (worker_reports_response "out_mode_05 1"); reflexivity.
Defined.

(** Without the condition on line feeds the worker reports less than the
    response: for the command "out_sp_00 a", line feed, "b" the simulator
    answers "Setpoint updated to a", line feed, "b", and the worker reads
    and reports the first line of it only. *)
Example response_cut_at_line_feed :
  response_text
    (readline_from
       (Py.bytes (Chiller.respond ("out_sp_00 a" +:+ String "010" "b")
                  +:+ Py.CRLF)))
  = "Setpoint updated to a".
Proof. reflexivity. Qed.

End EndToEnd.

(** ** The simulator, read by read *)

Section Reads.

Import Chiller.

(** X6. A read loses no byte and takes at most one line: the bytes of the
    stream are the bytes returned followed by the bytes left, a carriage
    return can only be the last byte returned, and a read on a stream that
    is not exhausted consumes at least one item. *)
Theorem read_until_conserves (rx : list RxItem) :
  rx_bytes rx = fst (read_until rx) ++ rx_bytes (snd (read_until rx))
  /\ ~ In CR (removelast (fst (read_until rx)))
  /\ (rx <> [] -> length (snd (read_until rx)) < length rx).
Proof.
  induction rx as [|[b|] rx (IHb & IHcr & IHlen)].
  - repeat split; [intros [] | intros H; contradiction].
  - simpl. destruct (Byte.eqb b CR) eqn:E.
    + repeat split; [intros [] | simpl; lia].
    + destruct (read_until rx) as [line rest] eqn:R. simpl in *.
      split; [now rewrite IHb|]. split.
      * destruct line as [|b' line]; [intros []|].
        intros [H|H]; [|now apply IHcr].
        subst b. vm_compute in E. discriminate E.
      * intros _. destruct rx as [|x rx]; [simpl in *; injection R as _ <-; simpl; lia|].
        assert (length rest < length (x :: rx)) by now apply IHlen.
        simpl in *. lia.
  - simpl. repeat split; [intros [] | simpl; lia].
Qed.

Lemma read_until_conserves_witness :
  length (snd (read_until [Rx LF; Rx CR; RxTimeout; Rx CR]))
  < length [Rx LF; Rx CR; RxTimeout; Rx CR].
Proof.
  apply (proj2 (proj2 (read_until_conserves [Rx LF; Rx CR; RxTimeout; Rx CR]))).
  discriminate.
Defined.

Lemma lstrip_by_all (p : ascii -> bool) (t : string) :
  Py.all_chars p t = true -> Py.lstrip_by p t = "".
Proof.
  induction t as [|c t IH]; [reflexivity|].
  simpl. intros [Hc Ht]%andb_true_iff. now rewrite Hc, (IH Ht).
Qed.

(** X7. A line of white space only, the empty line included, is not
    answered: the pass writes nothing and raises nothing. *)
Theorem blank_line_not_answered (text : string) :
  Py.isascii text = true ->
  Py.all_chars Py.isspace text = true ->
  handle (Py.bytes text) = Ok None.
Proof.
  intros Ha Hs. unfold handle. rewrite (decode_bytes _ Ha).
  unfold Py.strip. now rewrite (lstrip_by_all _ _ Hs).
Qed.

Lemma blank_line_not_answered_witness :
  handle (Py.bytes (" " +:+ Py.CRLF)) = Ok None.
Proof.
  apply (blank_line_not_answered (" " +:+ Py.CRLF)); reflexivity.
Defined.

Lemma decode_high_byte (raw : list byte) :
  existsb high_byte raw = true -> Py.decode raw = Raise UnicodeDecodeError.
Proof.
  induction raw as [|b raw IH]; [discriminate|].
  simpl. unfold high_byte at 1.
  destruct (Py.is_ascii (ascii_of_byte b)); simpl; [|reflexivity].
  intros H. now rewrite (IH H).
Qed.

Lemma decode_ok_isascii (raw : list byte) (text : string) :
  Py.decode raw = Ok text -> Py.isascii text = true.
Proof.
  revert text. induction raw as [|b raw IH]; intros text; simpl.
  - now intros [= <-].
  - destruct (Py.is_ascii (ascii_of_byte b)) eqn:Hb; [|discriminate].
    destruct (Py.decode raw) as [s|e]; [|discriminate].
    intros [= <-]. unfold Py.isascii in *. simpl. now rewrite Hb, (IH s).
Qed.

(** X8. A byte above 127 in the bytes read ends the simulator: the decoding
    raises, nothing is written for that read, and no later read is made. *)
Theorem high_byte_ends_simulator (n : nat) (rx : list RxItem) :
  existsb high_byte (fst (read_until rx)) = true ->
  handle (fst (read_until rx)) = Raise UnicodeDecodeError
  /\ simulate_chiller (S n) rx = ([], Some UnicodeDecodeError).
Proof.
  intros H.
  assert (Hh : handle (fst (read_until rx)) = Raise UnicodeDecodeError).
  { unfold handle. now rewrite (decode_high_byte _ H). }
  split; [exact Hh|]. simpl.
  destruct (read_until rx) as [raw rest]. simpl in Hh. now rewrite Hh.
Qed.

Lemma high_byte_ends_simulator_witness :
  simulate_chiller 3
    (map Rx (Py.bytes ("st" +:+ SerialWorker.e_acute +:+ Py.CR
                       +:+ "status" +:+ Py.CR)))
  = ([], Some UnicodeDecodeError).
Proof.
  apply (high_byte_ends_simulator 2
           (map Rx (Py.bytes ("st" +:+ SerialWorker.e_acute +:+ Py.CR
                              +:+ "status" +:+ Py.CR)))).
  reflexivity.
Defined.

Lemma decode_raises (raw : list byte) (e : Exn) :
  Py.decode raw = Raise e ->
  e = UnicodeDecodeError /\ existsb high_byte raw = true.
Proof.
  induction raw as [|b raw IH]; [discriminate|].
  simpl. unfold high_byte at 1.
  destruct (Py.is_ascii (ascii_of_byte b)); simpl.
  - destruct (Py.decode raw) as [s|e']; [discriminate|].
    intros [= ->]. now apply IH.
  - intros [= <-]. now split.
Qed.

(** X9. Between the read and the write of a pass, that is in the decoding of
    the bytes read, the choice of the response and its encoding, the only
    exception is the decoding error, raised exactly when a byte above 127
    was read: the encoding of the response of line 48 never raises. What
    the port raises in [read_until] or in [write] is not part of this. *)
Theorem handle_raises_decode_only (raw : list byte) :
  match handle raw with
  | Raise e => e = UnicodeDecodeError /\ existsb high_byte raw = true
  | Ok _ => existsb high_byte raw = false
  end.
Proof.
  unfold handle. destruct (Py.decode raw) as [text|e'] eqn:D.
  - assert (Hlow : existsb high_byte raw = false).
    { destruct (existsb high_byte raw) eqn:H; [|reflexivity].
      rewrite (decode_high_byte _ H) in D. discriminate D. }
    pose proof (decode_ok_isascii _ _ D) as Ha.
    destruct (negb (Py.is_empty (Py.strip text))); [|exact Hlow].
    rewrite encode_isascii; [exact Hlow|].
    unfold Py.isascii. rewrite all_chars_app.
    fold (Py.isascii (respond (Py.strip text))).
    now rewrite isascii_respond by now apply isascii_strip.
  - now apply decode_raises.
Qed.

End Reads.

Section Lines.

Import Chiller.

(** X10. With at least as many passes of the loop as there are frames, the
    simulator answers every frame of a stream of ASCII commands, in order:
    nothing for a blank command, the response and the line end for any
    other. This holds for frames that end with a carriage return and for
    frames that end with carriage return and line feed. *)
Theorem every_frame_answered (cmds : list string) (n : nat) :
  Forall (fun c => Py.isascii c = true /\ Py.char_in "013" c = false) cmds ->
  length cmds <= n ->
  simulate_chiller n (frames [CR] (map Py.bytes cmds))
  = (flat_map answer_of cmds, None)
  /\ simulate_chiller n (frames [CR; LF] (map Py.bytes cmds))
     = (flat_map answer_of cmds, None).
Proof.
  intros Hcmds Hn. split.
  - now apply frames_answered.
  - now apply crlf_frames_answered.
Qed.

Lemma every_frame_answered_witness :
  simulate_chiller 3 (frames [CR] (map Py.bytes ["VERSION"; ""; "foo"]))
  = (flat_map answer_of ["VERSION"; ""; "foo"], None)
  /\ simulate_chiller 3 (frames [CR; LF] (map Py.bytes ["VERSION"; ""; "foo"]))
     = (flat_map answer_of ["VERSION"; ""; "foo"], None).
Proof.
  apply (every_frame_answered ["VERSION"; ""; "foo"] 3).
  - repeat constructor.
  - simpl. lia.
Defined.

Lemma read_until_timeout (a : string) (rest : list RxItem) :
  Py.char_in "013" a = false ->
  read_until (map Rx (Py.bytes a) ++ RxTimeout :: rest) = (Py.bytes a, rest).
Proof.
  induction a as [|ch a IH]; intros H; [reflexivity|].
  simpl in H. apply orb_false_iff in H as [Hch Ha].
  change (Py.bytes (String ch a)) with (byte_of_ascii ch :: Py.bytes a).
  simpl. rewrite (byte_of_ascii_cr _ Hch). now rewrite (IH Ha).
Qed.

(** One pass of the loop on the bytes of ASCII text. *)
Lemma handle_text (t : string) :
  Py.isascii t = true ->
  handle (Py.bytes t)
  = Ok (match answer_of t with
        | [] => None
        | out :: _ => Some out
        end).
Proof.
  intros Ht. unfold handle, answer_of. rewrite (decode_bytes _ Ht).
  destruct (Py.is_empty (Py.strip t)) eqn:E; [reflexivity|]. simpl negb.
  cbv iota. rewrite encode_isascii; [reflexivity|].
  unfold Py.isascii. rewrite all_chars_app.
  fold (Py.isascii (respond (Py.strip t))).
  now rewrite isascii_respond by now apply isascii_strip.
Qed.

(** X11. The simulator does not keep the bytes of a read that timed out: a
    command cut in two by a timeout is answered as two lines, the part
    before the timeout and the part after it. *)
Theorem timeout_splits_line (a b : string) :
  Py.isascii a = true -> Py.char_in "013" a = false ->
  Py.isascii b = true -> Py.char_in "013" b = false ->
  simulate_chiller 2 (map Rx (Py.bytes a) ++ RxTimeout :: map Rx (Py.bytes b ++ [CR]))
  = (answer_of a ++ answer_of b, None).
Proof.
  intros Ha Hacr Hb Hbcr. cbn [simulate_chiller].
  rewrite (read_until_timeout a _ Hacr), (handle_text a Ha).
  rewrite <- (app_nil_r (map Rx (Py.bytes b ++ [CR]))).
  rewrite (read_until_frame b [] Hbcr), (handle_frame b Hb).
  unfold answer_of.
  destruct (Py.is_empty (Py.strip a)), (Py.is_empty (Py.strip b)); reflexivity.
Qed.

Lemma timeout_splits_line_witness :
  simulate_chiller 2
    (map Rx (Py.bytes "out_sp_00") ++ RxTimeout :: map Rx (Py.bytes " 5.00" ++ [CR]))
  = (answer_of "out_sp_00" ++ answer_of " 5.00", None).
Proof.
  apply (timeout_splits_line "out_sp_00" " 5.00"); reflexivity.
Defined.

End Lines.

(** ** The command lists of the main window *)

Section Commands.

Import SerialWorker MainWindow.

Lemma commands_to_send_app (ws : gmap string string) (l1 l2 : list Item) :
  commands_to_send ws (l1 ++ l2)
  = commands_to_send ws l1 ++ commands_to_send ws l2.
Proof.
  induction l1 as [|it l1 IH]; [reflexivity|].
  simpl. destruct (checked it); simpl; now rewrite IH.
Qed.

Lemma fst_command_of (ws : gmap string string) (it : Item) :
  fst (command_of ws it) = text it.
Proof.
  unfold command_of. destruct (data it) as [u|].
  - now destruct (accepts_param u).
  - now destruct (_ || _).
Qed.

(** X12. The commands handed to the worker are the checked items of the
    list, in the order of the list; an item that is not checked is left
    out. *)
Theorem commands_are_checked_items (ws : gmap string string) (items : list Item) :
  map fst (commands_to_send ws items) = map text (List.filter checked items).
Proof.
  induction items as [|it items IH]; [reflexivity|].
  simpl. destruct (checked it); [|exact IH].
  simpl. now rewrite IH, fst_command_of.
Qed.

Lemma param_text_trimmed (ws : gmap string string) (cmd : string) :
  Py.strip (param_text ws cmd) = param_text ws cmd.
Proof.
  unfold param_text. destruct (ws !! cmd); [apply strip_idem | reflexivity].
Qed.

(** X13. In a window kept by the operations, every command handed to the
    worker has a name that is not empty and has no white space at its ends,
    and a parameter, when it has one, without white space at its ends. *)
Theorem commands_are_trimmed (w : Window) :
  window_ok w ->
  Forall (fun c : Command =>
            fst c <> "" /\ Py.strip (fst c) = fst c
            /\ match snd c with
               | Some p => Py.strip p = p
               | None => True
               end)
         (commands_of_window w).
Proof.
  intros (_ & _ & _ & _ & Htexts). unfold commands_of_window.
  induction Htexts as [|it items [Hs Hne] _ IH]; [constructor|].
  simpl. destruct (checked it); [|exact IH].
  constructor; [|exact IH].
  rewrite fst_command_of. repeat split; try assumption.
  unfold command_of. destruct (data it) as [u|].
  - destruct (accepts_param u); [apply param_text_trimmed | exact I].
  - destruct (_ || _); [apply param_text_trimmed | exact I].
Qed.

Lemma initial_ok : window_ok initial.
Proof.
  unfold window_ok. simpl.
  split; [constructor|]. split; [constructor|].
  split; [constructor|]. split; [constructor|].
  repeat (constructor; [split; [reflexivity | discriminate]|]). constructor.
Qed.

Lemma commands_are_trimmed_witness :
  Forall (fun c : Command =>
            fst c <> "" /\ Py.strip (fst c) = fst c
            /\ match snd c with
               | Some p => Py.strip p = p
               | None => True
               end)
         (commands_of_window initial).
Proof.
  apply (commands_are_trimmed initial).
  unfold window_ok. simpl.
  split; [constructor|]. split; [constructor|].
  split; [constructor|]. split; [constructor|].
  repeat (constructor; [split; [reflexivity | discriminate]|]). constructor.
Defined.

End Commands.

Section Adding.

Import SerialWorker MainWindow.

Lemma param_text_insert_blank (ws : gmap string string) (k cmd : string) :
  ws !! k = None -> param_text (<[k := ""]> ws) cmd = param_text ws cmd.
Proof.
  intros Hk. unfold param_text. rewrite lookup_insert.
  destruct (decide (k = cmd)) as [->|]; [now rewrite Hk | reflexivity].
Qed.

Lemma commands_to_send_insert_blank
    (ws : gmap string string) (k : string) (items : list Item) :
  ws !! k = None ->
  commands_to_send (<[k := ""]> ws) items = commands_to_send ws items.
Proof.
  intros Hk. induction items as [|it items IH]; [reflexivity|].
  simpl. rewrite IH. destruct (checked it); [|reflexivity]. f_equal.
  unfold command_of. now rewrite (param_text_insert_blank _ _ _ Hk).
Qed.

(** X14. A custom command typed as white space only is not added: the
    window stays as it is. *)
Theorem blank_command_not_added (w : Window) :
  Py.all_chars Py.isspace (custom_command_edit w) = true ->
  add_custom_command w = w.
Proof.
  intros H. unfold add_custom_command, Py.strip.
  now rewrite (lstrip_by_all _ _ H).
Qed.

Lemma blank_command_not_added_witness :
  add_custom_command (typed "   " true initial) = typed "   " true initial.
Proof.
  apply (blank_command_not_added (typed "   " true initial)). reflexivity.
Defined.

(** X15. A custom command that is not blank is added checked at the end of
    the list, so it is sent last, after the commands sent before, which
    keep their parameters; it is sent with the text of its parameter box
    when it accepts a parameter, and without a parameter otherwise. *)
Theorem added_command_sent_last (w : Window) :
  Py.is_empty (Py.strip (custom_command_edit w)) = false ->
  commands_of_window (add_custom_command w)
  = commands_of_window w
    ++ [(Py.strip (custom_command_edit w),
         if custom_param_checkbox w
         then Some (param_text (out_params_widgets w)
                      (Py.strip (custom_command_edit w)))
         else None)].
Proof.
  intros Hne. unfold commands_of_window, add_custom_command. rewrite Hne.
  simpl. rewrite commands_to_send_app. simpl. unfold command_of. simpl.
  destruct (out_params_widgets w !! Py.strip (custom_command_edit w)) eqn:E;
    [now destruct (custom_param_checkbox w)|].
  destruct (custom_param_checkbox w); [|reflexivity].
  now rewrite (commands_to_send_insert_blank _ _ _ E),
    (param_text_insert_blank _ _ _ E).
Qed.

Lemma added_command_sent_last_witness :
  commands_of_window (add_custom_command (typed " in_sp_01 " false initial))
  = commands_of_window (typed " in_sp_01 " false initial)
    ++ [("in_sp_01", None)].
Proof.
  apply (added_command_sent_last (typed " in_sp_01 " false initial)).
  reflexivity.
Defined.

(** X16. After [deselect_all] no command is handed to the worker, and a
    session started then, on a port that opens, only opens the port, closes
    it and emits the finished signal. After [select_all] every item of the
    list is sent. *)
Theorem deselected_sends_nothing
    (w : Window) (env : Env) (newline : bool) (tx : float) :
  open_error env = None ->
  commands_of_window (deselect_all w) = []
  /\ run_trace env (worker (commands_of_window (deselect_all w)) newline tx)
     = [Open; Close; Finished]
  /\ map fst (commands_of_window (select_all w)) = map text (command_list w).
Proof.
  intros Hopen.
  assert (Hnone : commands_of_window (deselect_all w) = []).
  { unfold commands_of_window, deselect_all. simpl.
    induction (command_list w) as [|it items IH]; [reflexivity | exact IH]. }
  split; [exact Hnone|]. split.
  - rewrite Hnone, (run_trace_opened env _ Hopen). simpl for_commands.
    unfold ret. now rewrite trace_log, trace_tick.
  - unfold commands_of_window, select_all. simpl.
    induction (command_list w) as [|it items IH]; [reflexivity|].
    simpl. now rewrite IH, fst_command_of.
Qed.

Lemma deselected_sends_nothing_witness :
  run_trace silent_device
    (worker (commands_of_window (deselect_all initial)) false 0)
  = [Open; Close; Finished].
Proof.
  refine (proj1 (proj2 (deselected_sends_nothing initial silent_device false 0 _))).
  reflexivity.
Defined.

End Adding.

Section Deleting.

Import SerialWorker MainWindow.

Lemma take_all_app (xs ys : list nat) (st : list Item * gmap string string) :
  take_all (xs ++ ys) st
  = match take_all xs st with
    | Some st' => take_all ys st'
    | None => None
    end.
Proof.
  revert st. induction xs as [|x xs IH]; intros st; [reflexivity|].
  simpl. destruct (take_at st x); [apply IH | reflexivity].
Qed.

Lemma take_all_single (i : nat) (st : list Item * gmap string string) :
  take_all [i] st = take_at st i.
Proof. simpl. now destruct (take_at st i). Qed.

Lemma firstn_length_app (pre rest : list Item) :
  firstn (length pre) (pre ++ rest) = pre.
Proof. induction pre as [|x pre IH]; simpl; [now destruct rest | now rewrite IH]. Qed.

Lemma skipn_length_app (pre rest : list Item) (it : Item) :
  skipn (S (length pre)) (pre ++ it :: rest) = rest.
Proof. induction pre as [|x pre IH]; [reflexivity | exact IH]. Qed.

Lemma nth_error_length_app (pre rest : list Item) (it : Item) :
  nth_error (pre ++ it :: rest) (length pre) = Some it.
Proof. induction pre as [|x pre IH]; [reflexivity | exact IH]. Qed.

Lemma take_at_middle (pre post : list Item) (it : Item) (ws : gmap string string) :
  take_at (pre ++ it :: post, ws) (length pre)
  = Some (pre ++ post, delete (text it) ws).
Proof.
  unfold take_at.
  rewrite nth_error_length_app, firstn_length_app, skipn_length_app.
  destruct (ws !! text it) eqn:E; [reflexivity|]. now rewrite delete_id.
Qed.

(** Taken from the last to the first, the indices collected stay the indices
    of the items to remove: the loop removes exactly these items. *)
Lemma take_all_removes (cmd_id : nat) (l : list Item) :
  forall (pre : list Item) (ws : gmap string string),
    take_all (rev (indices_to_remove (length pre) cmd_id l)) (pre ++ l, ws)
    = Some (pre ++ List.filter (fun it => negb (matches cmd_id it)) l,
            drop_texts cmd_id l ws).
Proof.
  induction l as [|it l IH]; intros pre ws; [reflexivity|].
  specialize (IH (pre ++ [it]) ws).
  rewrite length_app, Nat.add_1_r, <- app_assoc in IH. simpl in IH.
  simpl. destruct (matches cmd_id it); simpl.
  - rewrite take_all_app, IH, take_all_single, <- app_assoc.
    apply take_at_middle.
  - rewrite IH, <- app_assoc. reflexivity.
Qed.

Lemma delete_one_spec (w : Window) (item : CustomItem) :
  delete_one w item
  = Some {| command_list :=
              List.filter (fun it => negb (matches (cid item) it)) (command_list w);
            custom_list_display := take_row (cid item) (custom_list_display w);
            out_params_widgets :=
              drop_texts (cid item) (command_list w) (out_params_widgets w);
            custom_command_counter := custom_command_counter w;
            custom_command_edit := custom_command_edit w;
            custom_param_checkbox := custom_param_checkbox w |}.
Proof.
  unfold delete_one.
  now rewrite (take_all_removes (cid item) (command_list w) [] _).
Qed.

Lemma filter_filter (f g : Item -> bool) (l : list Item) :
  List.filter g (List.filter f l) = List.filter (fun it => f it && g it) l.
Proof.
  induction l as [|it l IH]; [reflexivity|].
  simpl. destruct (f it); simpl; [destruct (g it)|]; now rewrite IH.
Qed.

(** X17. Deleting the selected custom commands never fails. It removes from
    the unified list exactly the custom items that carry the id of a
    selected item, keeps the other items in their order, and never removes a
    standard command. *)
Theorem delete_removes_selected (selected_items : list CustomItem) (w : Window) :
  exists w' : Window,
    delete_selected_custom_commands selected_items w = Some w'
    /\ command_list w' = List.filter (kept selected_items) (command_list w)
    /\ List.filter is_standard (command_list w')
       = List.filter is_standard (command_list w)
    /\ custom_command_counter w' = custom_command_counter w.
Proof.
  revert w. induction selected_items as [|item rest IH]; intros w.
  - exists w. repeat split; try reflexivity.
    + unfold kept. simpl. induction (command_list w) as [|it l IHl]; [reflexivity|].
      simpl. now rewrite <- IHl.
  - simpl. rewrite delete_one_spec.
    destruct (IH {| command_list :=
                      List.filter (fun it => negb (matches (cid item) it))
                        (command_list w);
                    custom_list_display :=
                      take_row (cid item) (custom_list_display w);
                    out_params_widgets :=
                      drop_texts (cid item) (command_list w)
                        (out_params_widgets w);
                    custom_command_counter := custom_command_counter w;
                    custom_command_edit := custom_command_edit w;
                    custom_param_checkbox := custom_param_checkbox w |})
      as (w' & Hdel & Hl & Hstd & Hc).
    simpl in Hl, Hstd, Hc.
    exists w'. split; [exact Hdel|]. split; [|split; [|exact Hc]].
    + rewrite Hl, filter_filter. apply List.filter_ext. intros it.
      unfold kept. simpl. now rewrite negb_orb.
    + rewrite Hstd, filter_filter. apply List.filter_ext. intros it.
      unfold is_standard, matches.
      destruct (data it); [apply andb_false_r | reflexivity].
Qed.

End Deleting.

Section WindowInvariant.

Import SerialWorker MainWindow.

Lemma custom_ids_app (l1 l2 : list Item) :
  custom_ids (l1 ++ l2) = custom_ids l1 ++ custom_ids l2.
Proof. apply flat_map_app. Qed.

Lemma NoDup_snoc (l : list nat) (x : nat) :
  List.NoDup l -> ~ In x l -> List.NoDup (l ++ [x]).
Proof.
  induction 1 as [|y l Hy Hl IH]; intros Hx; simpl.
  - apply List.NoDup_cons; [intros [] | apply List.NoDup_nil].
  - apply List.NoDup_cons.
    + rewrite in_app_iff. intros [H|[H|[]]]; [now apply Hy|].
      subst. apply Hx. now left.
    + apply IH. intros H. apply Hx. now right.
Qed.

Lemma fresh_not_in (l : list nat) (c : nat) :
  Forall (fun n => n <= c) l -> ~ In (S c) l.
Proof.
  intros H Hin. rewrite List.Forall_forall in H. specialize (H _ Hin). lia.
Qed.

Lemma in_custom_ids_filter (f : Item -> bool) (l : list Item) (n : nat) :
  In n (custom_ids (List.filter f l)) -> In n (custom_ids l).
Proof.
  induction l as [|it l IH]; [intros []|].
  simpl. destruct (f it); simpl; rewrite ?in_app_iff; intuition.
Qed.

Lemma NoDup_custom_ids_filter (f : Item -> bool) (l : list Item) :
  List.NoDup (custom_ids l) -> List.NoDup (custom_ids (List.filter f l)).
Proof.
  induction l as [|it l IH]; [intros H; exact H|].
  simpl. destruct (data it) as [u|] eqn:E; simpl.
  - intros H. inversion H as [|? ? Hn Hl]; subst.
    destruct (f it); [|now apply IH].
    simpl. rewrite E. simpl. constructor; [|now apply IH].
    intros Hin. apply Hn. now apply in_custom_ids_filter in Hin.
  - intros H. destruct (f it); [|now apply IH].
    simpl. rewrite E. simpl. now apply IH.
Qed.

Lemma Forall_custom_ids_filter (P : nat -> Prop) (f : Item -> bool) (l : list Item) :
  Forall P (custom_ids l) -> Forall P (custom_ids (List.filter f l)).
Proof.
  rewrite !List.Forall_forall. intros H n Hin. apply H.
  now apply in_custom_ids_filter in Hin.
Qed.

Lemma Forall_filter_items (P : Item -> Prop) (f : Item -> bool) (l : list Item) :
  Forall P l -> Forall P (List.filter f l).
Proof.
  rewrite !List.Forall_forall. intros H it Hin. apply H.
  now apply List.filter_In in Hin.
Qed.

Lemma in_take_row (cmd_id n : nat) (l : list CustomItem) :
  In n (map cid (take_row cmd_id l)) -> In n (map cid l).
Proof.
  induction l as [|it l IH]; [intros []|].
  simpl. destruct (Nat.eqb (cid it) cmd_id); simpl; intuition.
Qed.

Lemma NoDup_take_row (cmd_id : nat) (l : list CustomItem) :
  List.NoDup (map cid l) -> List.NoDup (map cid (take_row cmd_id l)).
Proof.
  induction l as [|it l IH]; [intros H; exact H|].
  simpl. intros H. inversion H as [|? ? Hn Hl]; subst.
  destruct (Nat.eqb (cid it) cmd_id); [assumption|].
  simpl. constructor; [|now apply IH].
  intros Hin. apply Hn. now apply in_take_row in Hin.
Qed.

Lemma custom_ids_set_checked (b : bool) (l : list Item) :
  custom_ids (map (set_checked b) l) = custom_ids l.
Proof.
  induction l as [|it l IH]; [reflexivity|]. simpl. now rewrite IH.
Qed.

Lemma window_ok_set_checked (b : bool) (w : Window) :
  window_ok w ->
  window_ok (with_command_list (map (set_checked b) (command_list w)) w).
Proof.
  intros (H1 & H2 & H3 & H4 & H5). unfold window_ok. simpl.
  rewrite custom_ids_set_checked. repeat split; try assumption.
  rewrite Forall_map. exact H5.
Qed.

Lemma window_ok_add (w : Window) :
  window_ok w -> window_ok (add_custom_command w).
Proof.
  intros Hok. unfold add_custom_command.
  destruct (Py.is_empty (Py.strip (custom_command_edit w))) eqn:E;
    [exact Hok|].
  destruct Hok as (H1 & H2 & H3 & H4 & H5). unfold window_ok. simpl.
  rewrite custom_ids_app, map_app. simpl.
  rewrite !NoDup_ListNoDup in *.
  split; [apply NoDup_snoc; [assumption | now apply fresh_not_in]|].
  split.
  { apply Forall_app. split; [|now repeat constructor].
    eapply List.Forall_impl; [|exact H2]. simpl. intros; lia. }
  split; [apply NoDup_snoc; [assumption | now apply fresh_not_in]|].
  split.
  { apply Forall_app. split; [|now repeat constructor].
    eapply List.Forall_impl; [|exact H4]. simpl. intros; lia. }
  apply Forall_app. split; [assumption|].
  constructor; [|constructor]. simpl. split; [apply strip_idem|].
  intros Hs. now rewrite Hs in E.
Qed.

Lemma window_ok_delete_one (w w' : Window) (item : CustomItem) :
  window_ok w -> delete_one w item = Some w' -> window_ok w'.
Proof.
  intros (H1 & H2 & H3 & H4 & H5). rewrite delete_one_spec. intros [= <-].
  unfold window_ok. simpl. rewrite !NoDup_ListNoDup in *. repeat split.
  - now apply NoDup_custom_ids_filter.
  - now apply Forall_custom_ids_filter.
  - now apply NoDup_take_row.
  - rewrite List.Forall_forall in *. intros n Hin. apply H4.
    now apply in_take_row in Hin.
  - now apply Forall_filter_items.
Qed.

(** X18. The operations of the window keep its lists sound. From the window
    as it is built, after any adding, deleting, selecting and deselecting,
    the ids of the custom items are distinct and not above the counter in
    both lists, and the text of every item is trimmed and not empty. *)
Theorem window_ok_kept :
  window_ok initial
  /\ (forall w, window_ok w -> window_ok (add_custom_command w))
  /\ (forall selected_items w w',
         window_ok w ->
         delete_selected_custom_commands selected_items w = Some w' ->
         window_ok w')
  /\ (forall w, window_ok w -> window_ok (select_all w))
  /\ (forall w, window_ok w -> window_ok (deselect_all w)).
Proof.
  split; [apply initial_ok|]. split; [apply window_ok_add|].
  split; [|split; intros w Hw; now apply window_ok_set_checked].
  induction selected_items as [|item rest IH]; intros w w' Hok; simpl.
  - now intros [= <-].
  - destruct (delete_one w item) as [w1|] eqn:E; [|discriminate].
    apply IH. now apply (window_ok_delete_one w w1 item).
Qed.

Lemma window_ok_kept_witness :
  window_ok (deselect_all (add_custom_command (typed "in_sp_01" true initial))).
Proof.
  destruct window_ok_kept as (Hinit & Hadd & _ & _ & Hdes).
  apply Hdes, Hadd.
  unfold window_ok. simpl.
  split; [constructor|]. split; [constructor|].
  split; [constructor|]. split; [constructor|].
  repeat (constructor; [split; [reflexivity | discriminate]|]). constructor.
Defined.

End WindowInvariant.

Section AddThenDelete.

Import SerialWorker MainWindow.

Lemma filter_fresh (c : nat) (l : list Item) :
  Forall (fun n => n <= c) (custom_ids l) ->
  List.filter (fun it => negb (matches (S c) it)) l = l.
Proof.
  induction l as [|it l IH]; [reflexivity|].
  unfold custom_ids. simpl. fold (custom_ids l). unfold matches at 1.
  destruct (data it) as [u|]; simpl; intros H.
  - inversion H as [|? ? Hle Hl]; subst.
    replace (Nat.eqb (id u) (S c)) with false
      by (symmetry; apply Nat.eqb_neq; lia).
    rewrite andb_false_r. simpl. now rewrite IH.
  - now rewrite IH.
Qed.

Lemma drop_texts_fresh (c : nat) (l : list Item) (widgets : gmap string string) :
  Forall (fun n => n <= c) (custom_ids l) ->
  drop_texts (S c) l widgets = widgets.
Proof.
  induction l as [|it l IH]; [reflexivity|].
  unfold custom_ids. simpl. fold (custom_ids l). unfold matches.
  destruct (data it) as [u|]; simpl; intros H.
  - inversion H as [|? ? Hle Hl]; subst.
    replace (Nat.eqb (id u) (S c)) with false
      by (symmetry; apply Nat.eqb_neq; lia).
    rewrite andb_false_r. now apply IH.
  - now apply IH.
Qed.

Lemma drop_texts_app (cmd_id : nat) (l1 l2 : list Item)
    (widgets : gmap string string) :
  drop_texts cmd_id (l1 ++ l2) widgets
  = drop_texts cmd_id l1 (drop_texts cmd_id l2 widgets).
Proof.
  induction l1 as [|it l1 IH]; [reflexivity|].
  simpl. now rewrite IH.
Qed.

Lemma take_row_fresh (c : nat) (l : list CustomItem) (t : string) :
  Forall (fun n => n <= c) (map cid l) ->
  take_row (S c) (l ++ [{| ctext := t; cid := S c |}]) = l.
Proof.
  induction l as [|it l IH]; simpl; intros H.
  - now rewrite Nat.eqb_refl.
  - inversion H as [|? ? Hle Hl]; subst.
    replace (Nat.eqb (cid it) (S c)) with false
      by (symmetry; apply Nat.eqb_neq; lia).
    now rewrite IH.
Qed.

(** X19. Adding a custom command and deleting it again. In a window whose
    lists are sound, where the typed text is not blank, deleting the item
    that [add_custom_command] has just added gives back the unified list and
    the display as they were; the counter stays one higher; and the
    parameter widgets are the old ones WITHOUT the entry of the typed text,
    so a widget that was there before the command was added is gone too. *)
Theorem add_then_delete (w : Window) :
  window_ok w ->
  Py.is_empty (Py.strip (custom_command_edit w)) = false ->
  exists w' : Window,
    delete_selected_custom_commands
      [{| ctext := Py.strip (custom_command_edit w);
          cid := S (custom_command_counter w) |}]
      (add_custom_command w) = Some w'
    /\ command_list w' = command_list w
    /\ custom_list_display w' = custom_list_display w
    /\ custom_command_counter w' = S (custom_command_counter w)
    /\ out_params_widgets w'
       = delete (Py.strip (custom_command_edit w)) (out_params_widgets w).
Proof.
  intros (H1 & H2 & H3 & H4 & H5) Hne.
  simpl delete_selected_custom_commands. rewrite delete_one_spec.
  eexists. split; [reflexivity|].
  unfold add_custom_command. rewrite Hne. simpl.
  split.
  { rewrite List.filter_app, (filter_fresh _ _ H2). simpl.
    unfold matches. simpl. rewrite Nat.eqb_refl. simpl. apply app_nil_r. }
  split; [now apply take_row_fresh|].
  split; [reflexivity|].
  rewrite drop_texts_app. simpl. unfold matches at 1. simpl.
  rewrite Nat.eqb_refl. simpl. rewrite (drop_texts_fresh _ _ _ H2).
  destruct (out_params_widgets w !! Py.strip (custom_command_edit w));
    [reflexivity|].
  destruct (custom_param_checkbox w); [|reflexivity].
  apply delete_insert_eq.
Qed.

Lemma add_then_delete_witness :
  exists w' : Window,
    delete_selected_custom_commands
      [{| ctext := "out_sp_00"; cid := 1 |}]
      (add_custom_command (typed " out_sp_00" true initial)) = Some w'
    /\ command_list w' = command_list initial
    /\ custom_list_display w' = custom_list_display initial
    /\ custom_command_counter w' = 1
    /\ out_params_widgets w' = delete "out_sp_00" (out_params_widgets initial).
Proof.
  apply (add_then_delete (typed " out_sp_00" true initial)).
  - unfold window_ok. simpl.
    split; [constructor|]. split; [constructor|].
    split; [constructor|]. split; [constructor|].
    repeat (constructor; [split; [reflexivity | discriminate]|]). constructor.
  - reflexivity.
Defined.

End AddThenDelete.
